(** * ng-sidebar: the sidebar container

    A shallow embedding of [src/sidebar-container.component.ts] and the
    properties of its layout computation, backdrop arbitration and
    lifecycle hooks.

    Conventions of the embedding.
    - A panel is an object shared between the container and its own
      controller: panels live in a heap and [_sidebars] holds references.
      A [null]/[undefined] entry of the array is [None].
    - Pixel sizes ([_width], [_height], [_dockedSize]) are JavaScript
      numbers; they are modelled as integers ([Z]), and a template literal
      [${n}] prints them in decimal ([pretty]).
    - Methods run in a state-and-exception monad over the world: the
      container's fields, the heap of panels, and the log of calls made on
      the outside (emitters, the registration service, timers, panels). *)

From stdpp Require Import base strings list gmap pretty.
From Stdlib Require Import ZArith Lia Ascii.

Local Open Scope Z_scope.

(** ** Panels ([Sidebar], declared in sidebar.component.ts) *)

Module Sidebar.

Inductive Mode := over | push | slide.

(** The fields and getters of a panel that the container reads.
    [_isDocked], [_width], [_height] and [_dockedSize] are getters of the
    panel class; the container only reads them, so they are kept as
    plain data. *)
Record t := mk {
  position : string;
  mode : Mode;
  opened : bool;
  dock : bool;
  showBackdrop : bool;
  closeOnClickBackdrop : bool;
  _isDocked : bool;
  _width : Z;
  _height : Z;
  _dockedSize : Z
}.

(** Modelled from the spec: the getters [_isModeOver], [_isModePush] and
    [_isModeSlide] of the panel class (sidebar.component.ts) are
    "mutually exclusive booleans derived from mode". *)
Definition _isModeOver (s : t) : bool :=
  match mode s with over => true | _ => false end.
Definition _isModePush (s : t) : bool :=
  match mode s with push => true | _ => false end.
Definition _isModeSlide (s : t) : bool :=
  match mode s with slide => true | _ => false end.

Definition set_opened (b : bool) (s : t) : t :=
  mk (position s) (mode s) b (dock s) (showBackdrop s)
     (closeOnClickBackdrop s) (_isDocked s) (_width s) (_height s)
     (_dockedSize s).

End Sidebar.

(** ** The container's state *)

Definition ref := nat.

Record SidebarContainer := mkContainer {
  animate : bool;
  allowSidebarBackdropControl : bool;
  showBackdrop : bool;
  sidebarContentClass : string;
  backdropClass : string;
  _isBrowser : bool;
  _sidebars : list (option ref)
}.

Definition set_showBackdrop (b : bool) (c : SidebarContainer) : SidebarContainer :=
  mkContainer (animate c) (allowSidebarBackdropControl c) b
    (sidebarContentClass c) (backdropClass c) (_isBrowser c) (_sidebars c).

Definition set_allowSidebarBackdropControl (b : bool) (c : SidebarContainer)
  : SidebarContainer :=
  mkContainer (animate c) b (showBackdrop c)
    (sidebarContentClass c) (backdropClass c) (_isBrowser c) (_sidebars c).

Definition push_sidebar (sidebar : option ref) (c : SidebarContainer)
  : SidebarContainer :=
  mkContainer (animate c) (allowSidebarBackdropControl c) (showBackdrop c)
    (sidebarContentClass c) (backdropClass c) (_isBrowser c)
    (_sidebars c ++ [sidebar]).

(** The container as its constructor leaves it. *)
Definition new_container (isBrowser : bool) : SidebarContainer :=
  mkContainer true true false "" "" isBrowser [].

(** ** Calls on the outside *)

Inductive Signal :=
  | onOpenStart | onOpened | onCloseStart | onClosed
  | onModeChange | onPositionChange | _onRerender.

Inductive Handler := HOnToggle | HMarkForCheck.

Inductive Call :=
  | ShowBackdropChangeEmit (b : bool)      (* this.showBackdropChange.emit(b) *)
  | ServiceOnRegister                      (* this._sidebarService.onRegister(cb) *)
  | Subscribe (r : ref) (s : Signal) (h : Handler)
  | Unsubscribe (r : ref) (s : Signal)
  | Close (r : ref)                        (* sidebar.close() *)
  | SetTimeoutMarkForCheck                 (* setTimeout(() => this._markForCheck()) *)
  | RefMarkForCheck.                       (* this._ref.markForCheck() *)

Global Instance Signal_eq_dec : EqDecision Signal.
Proof. solve_decision. Defined.
Global Instance Handler_eq_dec : EqDecision Handler.
Proof. solve_decision. Defined.
Global Instance Call_eq_dec : EqDecision Call.
Proof. solve_decision. Defined.

(** ** The world and the monad of methods *)

Record World := mkWorld {
  this : SidebarContainer;
  heap : gmap ref Sidebar.t;
  calls : list Call                         (* oldest first *)
}.

Inductive Error := TypeError.

Inductive Outcome (A : Type) :=
  | Ok (a : A) (w : World)
  | Throw (e : Error) (w : World).
Global Arguments Ok {A} a w.
Global Arguments Throw {A} e w.

Definition M (A : Type) : Type := World -> Outcome A.

Global Instance M_ret : MRet M := fun A a w => Ok a w.
Global Instance M_bind : MBind M := fun A B f m w =>
  match m w with
  | Ok a w' => f a w'
  | Throw e w' => Throw e w'
  end.

Definition get_this : M SidebarContainer := fun w => Ok (this w) w.

Definition modify_this (f : SidebarContainer -> SidebarContainer) : M unit :=
  fun w => Ok tt (mkWorld (f (this w)) (heap w) (calls w)).

Definition call (c : Call) : M unit :=
  fun w => Ok tt (mkWorld (this w) (heap w) (calls w ++ [c])).

(** The object a reference denotes; [None] is a falsy value: [null] or
    [undefined] in the array, or a reference that denotes no panel. *)
Definition panelAt (h : gmap ref Sidebar.t) (sidebar : option ref)
  : option Sidebar.t :=
  match sidebar with
  | Some r => h !! r
  | None => None
  end.

Definition load (sidebar : option ref) : M (option Sidebar.t) :=
  fun w => Ok (panelAt (heap w) sidebar) w.

(** Reading a property of [sidebar]: a TypeError on a falsy value. *)
Definition deref (sidebar : option ref) : M Sidebar.t :=
  fun w => match panelAt (heap w) sidebar with
           | Some s => Ok s w
           | None => Throw TypeError w
           end.

(** Calling a method of [sidebar] or of one of its emitters. *)
Definition callOn (sidebar : option ref) (c : ref -> Call) : M unit :=
  fun w => match sidebar, panelAt (heap w) sidebar with
           | Some r, Some _ => call (c r) w
           | _, _ => Throw TypeError w
           end.

(** Modelled from the spec: [Sidebar.close()] (sidebar.component.ts)
    "requests the panel transition to closed; no return value awaited".
    The call is logged and the panel's [opened] becomes false. *)
Definition close (sidebar : option ref) : M unit :=
  fun w => match sidebar, panelAt (heap w) sidebar with
           | Some r, Some _ =>
               Ok tt (mkWorld (this w)
                              (alter (Sidebar.set_opened false) r (heap w))
                              (calls w ++ [Close r]))
           | _, _ => Throw TypeError w
           end.

(** [Array.prototype.forEach], [Array.prototype.some], and [forEach] with a
    callback that assigns to variables [V] of the enclosing function. *)
Fixpoint forEach {A} (f : A -> M unit) (l : list A) : M unit :=
  match l with
  | [] => mret tt
  | x :: l' => f x ;; forEach f l'
  end.

Fixpoint some {A} (f : A -> M bool) (l : list A) : M bool :=
  match l with
  | [] => mret false
  | x :: l' => b ← f x; if b : bool then mret true else some f l'
  end.

Fixpoint forEachVars {A V} (f : V -> A -> M V) (l : list A) (v : V) : M V :=
  match l with
  | [] => mret v
  | x :: l' => v' ← f v x; forEachVars f l' v'
  end.

(** ** [_getContentStyles] *)

Record CSSStyleDeclaration := mkStyle {
  padding : string;
  webkitTransform : option string;
  transform : option string;
  height : option string;
  width : option string
}.

(** The local variables of [_getContentStyles] that the [forEach] callback
    assigns to. *)
Module Vars.
Record t := mk {
  left : Z;
  right : Z;
  top : Z;
  bottom : Z;
  transformStyle : option string;
  heightStyle : option string;
  widthStyle : option string
}.

Definition init : t := mk 0 0 0 0 None None None.

Definition set_left (n : Z) (v : t) : t :=
  mk n (right v) (top v) (bottom v) (transformStyle v) (heightStyle v) (widthStyle v).
Definition set_right (n : Z) (v : t) : t :=
  mk (left v) n (top v) (bottom v) (transformStyle v) (heightStyle v) (widthStyle v).
Definition set_top (n : Z) (v : t) : t :=
  mk (left v) (right v) n (bottom v) (transformStyle v) (heightStyle v) (widthStyle v).
Definition set_bottom (n : Z) (v : t) : t :=
  mk (left v) (right v) (top v) n (transformStyle v) (heightStyle v) (widthStyle v).
Definition set_transformStyle (s : option string) (v : t) : t :=
  mk (left v) (right v) (top v) (bottom v) s (heightStyle v) (widthStyle v).
Definition set_heightStyle (s : option string) (v : t) : t :=
  mk (left v) (right v) (top v) (bottom v) (transformStyle v) s (widthStyle v).
Definition set_widthStyle (s : option string) (v : t) : t :=
  mk (left v) (right v) (top v) (bottom v) (transformStyle v) (heightStyle v) s.
End Vars.

(** The body of the callback passed to [forEach] (lines 138-188), for a
    panel that passed the [if (!sidebar) { return; }] test. *)
Definition visit (v : Vars.t) (sidebar : Sidebar.t) : Vars.t :=
  let isLeftOrRight : bool :=
    String.eqb (Sidebar.position sidebar) "left"
    || String.eqb (Sidebar.position sidebar) "right" in
  (* Slide mode: we need to translate the entire container *)
  let v :=
    if Sidebar._isModeSlide sidebar then
      if Sidebar.opened sidebar then
        let isLeftOrTop : bool :=
          String.eqb (Sidebar.position sidebar) "left"
          || String.eqb (Sidebar.position sidebar) "top" in
        let transformDir : string := if isLeftOrRight then "X" else "Y" in
        let transformAmt : string :=
          (if isLeftOrTop then "" else "-")
          +:+ pretty (if isLeftOrRight then Sidebar._width sidebar
                      else Sidebar._height sidebar) in
        Vars.set_transformStyle
          (Some ("translate" +:+ transformDir +:+ "(" +:+ transformAmt +:+ "px)")) v
      else v
    else v in
  (* Create a space for the sidebar *)
  if (Sidebar._isModePush sidebar && Sidebar.opened sidebar) || Sidebar.dock sidebar
  then
    let '(paddingAmt, v) :=
      if Sidebar._isModeSlide sidebar && Sidebar.opened sidebar then
        let offsetDim : string :=
          "calc(100% - " +:+ pretty (Sidebar._dockedSize sidebar) +:+ "px" in
        (0, if isLeftOrRight then Vars.set_widthStyle (Some offsetDim) v
            else Vars.set_heightStyle (Some offsetDim) v)
      else if Sidebar._isDocked sidebar
              || (Sidebar._isModeOver sidebar && Sidebar.dock sidebar)
      then (Sidebar._dockedSize sidebar, v)
      else (if isLeftOrRight then Sidebar._width sidebar
            else Sidebar._height sidebar, v) in
    if String.eqb (Sidebar.position sidebar) "left" then
      Vars.set_left (Z.max (Vars.left v) paddingAmt) v
    else if String.eqb (Sidebar.position sidebar) "right" then
      Vars.set_right (Z.max (Vars.right v) paddingAmt) v
    else if String.eqb (Sidebar.position sidebar) "top" then
      Vars.set_top (Z.max (Vars.top v) paddingAmt) v
    else if String.eqb (Sidebar.position sidebar) "bottom" then
      Vars.set_bottom (Z.max (Vars.bottom v) paddingAmt) v
    else v
  else v.

(** The returned object literal (lines 192-198). *)
Definition styleOfVars (v : Vars.t) : CSSStyleDeclaration :=
  mkStyle
    (pretty (Vars.top v) +:+ "px " +:+ pretty (Vars.right v) +:+ "px "
     +:+ pretty (Vars.bottom v) +:+ "px " +:+ pretty (Vars.left v) +:+ "px")
    (Vars.transformStyle v)
    (Vars.transformStyle v)
    (Vars.heightStyle v)
    (Vars.widthStyle v).

(** [this._sidebars] is an array, hence truthy: the test of line 134
    always succeeds. *)
Definition _getContentStyles : M CSSStyleDeclaration :=
  c ← get_this;
  v ← forEachVars
        (fun v sidebar =>
           s ← load sidebar;
           match s with
           | None => mret v                       (* if (!sidebar) { return; } *)
           | Some s => mret (visit v s)
           end)
        (_sidebars c) Vars.init;
  mret (styleOfVars v).

(** ** Backdrop and subscriptions *)

Definition _onBackdropClicked : M unit :=
  c ← get_this;
  forEach
    (fun sidebar =>
       s ← deref sidebar;
       if Sidebar.opened s && Sidebar.showBackdrop s
          && Sidebar.closeOnClickBackdrop s
       then close sidebar
       else mret tt)
    (_sidebars c).

Definition _markForCheck : M unit := call RefMarkForCheck.

Definition _onToggle : M unit :=
  c ← get_this;
  (if allowSidebarBackdropControl c then
     (* Show backdrop if a single open sidebar has it set *)
     hasOpen ← some (fun sidebar =>
                       s ← deref sidebar;
                       mret (Sidebar.opened s && Sidebar.showBackdrop s))
                    (_sidebars c);
     modify_this (set_showBackdrop hasOpen) ;;
     call (ShowBackdropChangeEmit hasOpen)
   else mret tt) ;;
  call SetTimeoutMarkForCheck.

Definition _subscribe (sidebar : option ref) : M unit :=
  callOn sidebar (fun r => Subscribe r onOpenStart HOnToggle) ;;
  callOn sidebar (fun r => Subscribe r onOpened HMarkForCheck) ;;
  callOn sidebar (fun r => Subscribe r onCloseStart HOnToggle) ;;
  callOn sidebar (fun r => Subscribe r onClosed HMarkForCheck) ;;
  callOn sidebar (fun r => Subscribe r onModeChange HMarkForCheck) ;;
  callOn sidebar (fun r => Subscribe r onPositionChange HMarkForCheck) ;;
  callOn sidebar (fun r => Subscribe r _onRerender HMarkForCheck).

Definition _unsubscribe : M unit :=
  c ← get_this;
  forEach
    (fun sidebar =>
       s ← load sidebar;
       match s with
       | None => mret tt                          (* if (!sidebar) { return; } *)
       | Some _ =>
           callOn sidebar (fun r => Unsubscribe r onOpenStart) ;;
           callOn sidebar (fun r => Unsubscribe r onOpened) ;;
           callOn sidebar (fun r => Unsubscribe r onCloseStart) ;;
           callOn sidebar (fun r => Unsubscribe r onClosed) ;;
           callOn sidebar (fun r => Unsubscribe r onModeChange) ;;
           callOn sidebar (fun r => Unsubscribe r onPositionChange) ;;
           callOn sidebar (fun r => Unsubscribe r _onRerender)
       end)
    (_sidebars c).

(** ** Lifecycle hooks *)

Definition ngAfterContentInit : M unit :=
  c ← get_this;
  if negb (_isBrowser c) then mret tt
  else _onToggle ;; call ServiceOnRegister.

(** The callback handed to [onRegister] (lines 97-100). *)
Definition onRegisterCallback (sidebar : option ref) : M unit :=
  modify_this (push_sidebar sidebar) ;;
  _subscribe sidebar.

(** [changes] is [changes['showBackdrop']]: [None] when the key is absent,
    else its [currentValue]. *)
Definition ngOnChanges (changes : option bool) : M unit :=
  c ← get_this;
  if negb (_isBrowser c) then mret tt
  else match changes with
       | Some currentValue => call (ShowBackdropChangeEmit currentValue)
       | None => mret tt
       end.

Definition ngOnDestroy : M unit :=
  c ← get_this;
  if negb (_isBrowser c) then mret tt
  else _unsubscribe.

(** ** What reaches the container from outside

    The template calls [_getContentStyles] and, through the backdrop
    element (present iff [showBackdrop]), [_onBackdropClicked]; Angular
    calls the lifecycle hooks and writes the inputs; the registration
    service calls the callbacks it was given; a panel's emitter calls the
    handlers subscribed to it; a panel's own controller writes the panel. *)

Inductive Entry :=
  | NgAfterContentInit
  | NgOnChanges (changes : option bool)
  | NgOnDestroy
  | GetContentStyles
  | BackdropClick
  | ServiceRegisters (sidebar : option ref)
  | PanelEmits (r : ref) (s : Signal)
  | InputShowBackdrop (b : bool)
  | InputAllowSidebarBackdropControl (b : bool)
  | PanelWritten (r : ref) (s : Sidebar.t).

(** The callbacks the service holds: one per [onRegister] call. *)
Definition registrations (log : list Call) : list Call :=
  filter (fun c => c = ServiceOnRegister) log.

(** The handlers an emitter holds: those subscribed since it was last
    unsubscribed. *)
Fixpoint handlersOf (r : ref) (s : Signal) (log : list Call) (acc : list Handler)
  : list Handler :=
  match log with
  | [] => acc
  | Subscribe r' s' h :: log' =>
      if bool_decide (r' = r /\ s' = s) then handlersOf r s log' (acc ++ [h])
      else handlersOf r s log' acc
  | Unsubscribe r' s' :: log' =>
      if bool_decide (r' = r /\ s' = s) then handlersOf r s log' []
      else handlersOf r s log' acc
  | _ :: log' => handlersOf r s log' acc
  end.

Definition runHandler (h : Handler) : M unit :=
  match h with
  | HOnToggle => _onToggle
  | HMarkForCheck => _markForCheck
  end.

Definition enter (e : Entry) : M unit :=
  match e with
  | NgAfterContentInit => ngAfterContentInit
  | NgOnChanges changes => ngOnChanges changes
  | NgOnDestroy => ngOnDestroy
  | GetContentStyles => _getContentStyles ;; mret tt
  | BackdropClick =>
      c ← get_this;
      if showBackdrop c then _onBackdropClicked else mret tt
  | ServiceRegisters sidebar =>
      fun w => forEach (fun _ => onRegisterCallback sidebar)
                       (registrations (calls w)) w
  | PanelEmits r s =>
      fun w => forEach runHandler (handlersOf r s (calls w) []) w
  | InputShowBackdrop b => modify_this (set_showBackdrop b)
  | InputAllowSidebarBackdropControl b =>
      modify_this (set_allowSidebarBackdropControl b)
  | PanelWritten r s =>
      fun w => Ok tt (mkWorld (this w) (<[r := s]> (heap w)) (calls w))
  end.

(** The world an outcome leaves behind (an exception keeps the writes made
    before it), and a run of entries. *)
Definition worldOf {A} (o : Outcome A) : World :=
  match o with
  | Ok _ w => w
  | Throw _ w => w
  end.

Definition run (es : list Entry) (w : World) : World :=
  fold_left (fun w e => worldOf (enter e w)) es w.

(** ** Vocabulary of the properties *)

(** The panels the container tracks, as the objects its references denote. *)
Definition panels (w : World) : list (option Sidebar.t) :=
  map (panelAt (heap w)) (_sidebars (this w)).

Definition livePanels (w : World) : list Sidebar.t :=
  omap id (panels w).

(** Every tracked reference denotes a panel. *)
Definition allLive (w : World) : Prop :=
  Forall (fun sidebar => is_Some (panelAt (heap w) sidebar)) (_sidebars (this w)).

Definition isLeftOrRight (s : Sidebar.t) : bool :=
  String.eqb (Sidebar.position s) "left" || String.eqb (Sidebar.position s) "right".

Definition isLeftOrTop (s : Sidebar.t) : bool :=
  String.eqb (Sidebar.position s) "left" || String.eqb (Sidebar.position s) "top".

Definition slideOpened (s : Sidebar.t) : bool :=
  Sidebar._isModeSlide s && Sidebar.opened s.

(** Lines 143-148: the transform a slide-mode open panel asks for. *)
Definition slideTransform (s : Sidebar.t) : string :=
  "translate" +:+ (if isLeftOrRight s then "X" else "Y") +:+ "("
  +:+ ((if isLeftOrTop s then "" else "-")
       +:+ pretty (if isLeftOrRight s then Sidebar._width s else Sidebar._height s))
  +:+ "px)".

(** Line 153: the panel needs space reserved for it. *)
Definition contributes (s : Sidebar.t) : bool :=
  (Sidebar._isModePush s && Sidebar.opened s) || Sidebar.dock s.

(** Lines 154-169: the value of [paddingAmt] for a contributing panel. *)
Definition paddingAmt (s : Sidebar.t) : Z :=
  if slideOpened s then 0
  else if Sidebar._isDocked s || (Sidebar._isModeOver s && Sidebar.dock s)
       then Sidebar._dockedSize s
       else if isLeftOrRight s then Sidebar._width s else Sidebar._height s.

(** Lines 156-162: the sized override of a contributing slide-mode open
    panel. *)
Definition offsetDim (s : Sidebar.t) : string :=
  "calc(100% - " +:+ pretty (Sidebar._dockedSize s) +:+ "px".

(** The amounts reserved on one side, in iteration order. *)
Definition reservedAt (side : string) (l : list Sidebar.t) : list Z :=
  map paddingAmt
      (filter (fun s => contributes s = true /\ Sidebar.position s = side) l).

(** [n] is the maximum of [amounts], and 0 when there is none. *)
Definition maxOrZero (n : Z) (amounts : list Z) : Prop :=
  match amounts with
  | [] => n = 0
  | _ => n ∈ amounts /\ Forall (fun a => a <= n) amounts
  end.

Definition sizesNonneg (s : Sidebar.t) : Prop :=
  0 <= Sidebar._width s /\ 0 <= Sidebar._height s /\ 0 <= Sidebar._dockedSize s.

Definition paddingString (top right bottom left : Z) : string :=
  pretty top +:+ "px " +:+ pretty right +:+ "px "
  +:+ pretty bottom +:+ "px " +:+ pretty left +:+ "px".

(** The purely functional reading of the loop of [_getContentStyles]. *)
Definition visitAll (l : list (option Sidebar.t)) (v : Vars.t) : Vars.t :=
  fold_left (fun v o => match o with None => v | Some s => visit v s end) l v.

(** The condition of [_onToggle] and of [_onBackdropClicked]. *)
Definition wantsBackdrop (s : Sidebar.t) : bool :=
  Sidebar.opened s && Sidebar.showBackdrop s.

Definition closesOnClick (s : Sidebar.t) : bool :=
  Sidebar.opened s && Sidebar.showBackdrop s && Sidebar.closeOnClickBackdrop s.

Definition closesOnClickAt (h : gmap ref Sidebar.t) (r : ref) : bool :=
  match h !! r with
  | Some s => closesOnClick s
  | None => false
  end.

(** The style of a container that tracks no panel. *)
Definition emptyStyle : CSSStyleDeclaration :=
  mkStyle "0px 0px 0px 0px" None None None None.

(** The accumulator of a side after one visit: [Math.max] with the
    panel's [paddingAmt] when the panel contributes on that side. *)
Definition bump (side : string) (acc : Z) (s : Sidebar.t) : Z :=
  if bool_decide (contributes s = true /\ Sidebar.position s = side)
  then Z.max acc (paddingAmt s) else acc.

(** The open slide-mode panels among the tracked ones, in iteration order. *)
Definition slideOpenedPanels (w : World) : list Sidebar.t :=
  filter (fun s => slideOpened s = true) (livePanels w).

(** The references of a list of entries, without the [null]s. *)
Definition refsOf (l : list (option ref)) : list ref := omap id l.

(** The heap after [close()] on each of [rs]. *)
Definition closeAll (rs : list ref) (h : gmap ref Sidebar.t) : gmap ref Sidebar.t :=
  fold_left (fun h r => alter (Sidebar.set_opened false) r h) rs h.

(** The calls [_unsubscribe] makes for one panel. *)
Definition unsubscribeCalls (r : ref) : list Call :=
  [Unsubscribe r onOpenStart; Unsubscribe r onOpened;
   Unsubscribe r onCloseStart; Unsubscribe r onClosed;
   Unsubscribe r onModeChange; Unsubscribe r onPositionChange;
   Unsubscribe r _onRerender].

(** The tracked panels that a click on the backdrop closes: those with
    [opened && showBackdrop && closeOnClickBackdrop], in iteration order. *)
Definition closedByClick (w : World) : list ref :=
  filter (fun r => closesOnClickAt (heap w) r = true) (refsOf (_sidebars (this w))).

(** The tracked references that denote a panel, in iteration order. *)
Definition liveRefs (w : World) : list ref :=
  filter (fun r => is_Some (heap w !! r)) (refsOf (_sidebars (this w))).

(** Nothing was ever registered, subscribed, emitted or scheduled, in a
    container without a rendering surface. *)
Definition idle (w : World) : Prop :=
  _isBrowser (this w) = false /\ calls w = [] /\ _sidebars (this w) = [].

Ltac unfold_visit :=
  unfold visit, slideOpened, contributes, paddingAmt, slideTransform, offsetDim,
    isLeftOrRight, isLeftOrTop,
    Sidebar._isModeSlide, Sidebar._isModePush, Sidebar._isModeOver.

(** ** Concrete panels and worlds used below *)

Definition panel (position : string) (mode : Sidebar.Mode) (opened dock : bool)
    (width height dockedSize : Z) : Sidebar.t :=
  Sidebar.mk position mode opened dock false false false width height dockedSize.

Definition worldOfPanels (c : SidebarContainer) (l : list Sidebar.t) : World :=
  mkWorld
    (mkContainer (animate c) (allowSidebarBackdropControl c) (showBackdrop c)
       (sidebarContentClass c) (backdropClass c) (_isBrowser c)
       (map Some (seq 0 (length l))))
    (list_to_map (zip (seq 0 (length l)) l))
    [].

(** Two open push-mode panels on the left, 200 and 80 pixels wide. *)
Definition twoPushLeft : World :=
  worldOfPanels (new_container true)
    [panel "left" Sidebar.push true false 200 0 0;
     panel "left" Sidebar.push true false 80 0 0].

(** One open slide-mode panel on the left, 300 pixels wide, not docked. *)
Definition oneSlideLeft : World :=
  worldOfPanels (new_container true)
    [panel "left" Sidebar.slide true false 300 0 0].

(** One open slide-mode panel on the left with [dock] set and a docked
    size of 56 pixels. *)
Definition dockedSlideLeft : World :=
  worldOfPanels (new_container true)
    [panel "left" Sidebar.slide true true 300 0 56].

(** Two open slide-mode panels: left (300 wide), then bottom (120 high). *)
Definition twoSlides : World :=
  worldOfPanels (new_container true)
    [panel "left" Sidebar.slide true false 300 0 0;
     panel "bottom" Sidebar.slide true false 0 120 0].

(** A container whose backdrop is driven from outside
    ([allowSidebarBackdropControl] false) and was set to shown; no panel. *)
Definition externallyShown : World :=
  mkWorld (mkContainer true false true "" "" true []) ∅ [].

(** An open panel that asks for the backdrop. *)
Definition backdropPanel (closeOnClickBackdrop : bool) : Sidebar.t :=
  Sidebar.mk "left" Sidebar.over true false true closeOnClickBackdrop false 200 0 0.

(** Three open panels asking for the backdrop; the first and the third
    close on a click of the backdrop, the second does not. *)
Definition threeOpen : World :=
  worldOfPanels (mkContainer true true true "" "" true [])
    [backdropPanel true; backdropPanel false; backdropPanel true].

(** A container (in a browser) whose array of panels holds [null]. *)
Definition nullTracked : World :=
  mkWorld (mkContainer true true false "" "" true [None]) ∅ [].

(** A freshly constructed container where no rendering surface was
    detected. *)
Definition serverWorld : World :=
  mkWorld (new_container false) ∅ [].

(** A freshly constructed container in a browser. *)
Definition browserWorld : World :=
  mkWorld (new_container true) ∅ [].

(** What may reach a container without a rendering surface, in some
    order: hooks, registrations, panel events, template calls. *)
Definition serverEntries : list Entry :=
  [NgAfterContentInit; ServiceRegisters (Some 0%nat);
   PanelWritten 0%nat (backdropPanel true); PanelEmits 0%nat onOpenStart;
   NgOnChanges (Some true); GetContentStyles; InputShowBackdrop true;
   BackdropClick; NgOnDestroy].

(** A closed panel and an open panel asking for the backdrop, in a
    container whose backdrop is not shown yet. *)
Definition closedAndOpen : World :=
  worldOfPanels (new_container true)
    [Sidebar.mk "left" Sidebar.over false false true false false 200 0 0;
     backdropPanel false].

(** ** Further vocabulary *)

(** The amount reserved on one side: [Math.max] folded from 0 over the
    amounts of the panels at that position. *)
Definition sideAmount (side : string) (w : World) : Z :=
  fold_left Z.max (reservedAt side (livePanels w)) 0.

(** A panel that takes neither branch of the callback: not open in slide
    mode (line 141-142) and not needing space (line 153). *)
Definition inert (s : Sidebar.t) : bool :=
  negb (slideOpened s) && negb (contributes s).

(** The position is one of the four cases of the [switch]. *)
Definition knownPosition (s : Sidebar.t) : bool :=
  String.eqb (Sidebar.position s) "left" || String.eqb (Sidebar.position s) "right"
  || String.eqb (Sidebar.position s) "top" || String.eqb (Sidebar.position s) "bottom".

(** The panels that assign [widthStyle] (resp. [heightStyle]) on line 159
    (resp. 161). *)
Definition widthOverriders (l : list Sidebar.t) : list Sidebar.t :=
  filter (fun s => contributes s && slideOpened s && isLeftOrRight s = true) l.

Definition heightOverriders (l : list Sidebar.t) : list Sidebar.t :=
  filter (fun s => contributes s && slideOpened s && negb (isLeftOrRight s) = true) l.

(** The calls [_subscribe] makes for one panel. *)
Definition subscribeCalls (r : ref) : list Call :=
  [Subscribe r onOpenStart HOnToggle; Subscribe r onOpened HMarkForCheck;
   Subscribe r onCloseStart HOnToggle; Subscribe r onClosed HMarkForCheck;
   Subscribe r onModeChange HMarkForCheck;
   Subscribe r onPositionChange HMarkForCheck;
   Subscribe r _onRerender HMarkForCheck].

(** [twoPushLeft] with its panels in the other order. *)
Definition twoPushLeftRev : World :=
  worldOfPanels (new_container true)
    [panel "left" Sidebar.push true false 80 0 0;
     panel "left" Sidebar.push true false 200 0 0].

(** A world with one slot of spare heap: the panel at reference 5 exists
    but is not tracked yet. *)
Definition oneUntracked : World :=
  mkWorld (this twoPushLeft)
    (<[5%nat := panel "left" Sidebar.push true false 250 0 0]> (heap twoPushLeft))
    [].


(** A browser container tracking nothing, whose [showBackdrop] input was
    set to true. *)
Definition shownAtStart : World :=
  mkWorld (mkContainer true true true "" "" true []) ∅ [].

(** A panel wanting the backdrop, then [null]. *)
Definition openThenNull : World :=
  mkWorld (mkContainer true true false "" "" true [Some 0%nat; None])
    {[ 0%nat := backdropPanel true ]} [].

(** A closed panel, then [null]. *)
Definition closedThenNull : World :=
  mkWorld (mkContainer true true false "" "" true [Some 0%nat; None])
    {[ 0%nat := Sidebar.set_opened false (backdropPanel true) ]} [].

(** A method keeps the relation [R] between the world it starts in and
    the world it leaves, whether it returns or throws. *)
Definition keeps {A} (R : World -> World -> Prop) (m : M A) : Prop :=
  forall w, R w (worldOf (m w)).

Definition sameHeap (w w' : World) : Prop := heap w' = heap w.

(** The detection flag is unchanged and the array was only appended to. *)
Definition grows (w w' : World) : Prop :=
  _isBrowser (this w') = _isBrowser (this w)
  /\ _sidebars (this w) `prefix_of` _sidebars (this w').

(** Entries through which a panel is written: a click (which calls
    [close()]) and the panel's own controller. *)
Definition writesPanels (e : Entry) : bool :=
  match e with
  | BackdropClick | PanelWritten _ _ => true
  | _ => false
  end.

(** A browser session: initialisation, a registration, a toggle event,
    rendering, teardown. *)
Definition browserEntries : list Entry :=
  [NgAfterContentInit; ServiceRegisters (Some 0%nat); ServiceRegisters None;
   PanelEmits 0%nat onOpenStart; InputShowBackdrop true; GetContentStyles;
   NgOnChanges (Some true); NgOnDestroy].

(* ===================================================================== *)
(** * Properties *)
(* ===================================================================== *)

(** ** The monad *)

Lemma bind_Ok {A B} (m : M A) (f : A -> M B) w a w' :
  m w = Ok a w' -> (m ≫= f) w = f a w'.
Proof. intros H. unfold mbind, M_bind. by rewrite H. Qed.

Lemma bind_Throw {A B} (m : M A) (f : A -> M B) w e w' :
  m w = Throw e w' -> (m ≫= f) w = Throw e w'.
Proof. intros H. unfold mbind, M_bind. by rewrite H. Qed.

(** ** The loop of [_getContentStyles] is the fold [visitAll] *)

Lemma getContentStyles_loop w l v :
  forEachVars
    (fun v sidebar =>
       s ← load sidebar;
       match s with
       | None => mret v
       | Some s => mret (visit v s)
       end) l v w
  = Ok (visitAll (map (panelAt (heap w)) l) v) w.
Proof.
  revert v. induction l as [|o l IH]; intros v; [done|].
  cbn [forEachVars map visitAll fold_left].
  unfold mbind at 1, M_bind at 1. unfold mbind at 1, M_bind at 1.
  unfold load at 1.
  destruct (panelAt (heap w) o) as [s|]; cbn; apply IH.
Qed.

Lemma getContentStyles_eq w :
  _getContentStyles w = Ok (styleOfVars (visitAll (panels w) Vars.init)) w.
Proof.
  unfold _getContentStyles, panels.
  unfold mbind at 1, M_bind at 1, get_this.
  unfold mbind at 1, M_bind at 1.
  by rewrite getContentStyles_loop.
Qed.

(** ** One visit, variable by variable *)

Lemma eqb_side (p side : string) :
  String.eqb p side = bool_decide (p = side).
Proof.
  destruct (String.eqb_spec p side).
  - by rewrite bool_decide_eq_true_2.
  - by rewrite bool_decide_eq_false_2.
Qed.

Lemma visit_transformStyle v s :
  Vars.transformStyle (visit v s)
  = if slideOpened s then Some (slideTransform s) else Vars.transformStyle v.
Proof.
  unfold_visit.
  destruct s as [p m o d sb cb isd wd ht ds]; cbn [Sidebar.position Sidebar.mode
    Sidebar.opened Sidebar.dock Sidebar._isDocked Sidebar._width Sidebar._height
    Sidebar._dockedSize].
  destruct (String.eqb p "left"), (String.eqb p "right"), (String.eqb p "top"),
    (String.eqb p "bottom"), m, o, d, isd; reflexivity.
Qed.

Lemma visit_widthStyle v s :
  Vars.widthStyle (visit v s)
  = if contributes s && slideOpened s && isLeftOrRight s
    then Some (offsetDim s) else Vars.widthStyle v.
Proof.
  unfold_visit.
  destruct s as [p m o d sb cb isd wd ht ds]; cbn [Sidebar.position Sidebar.mode
    Sidebar.opened Sidebar.dock Sidebar._isDocked Sidebar._width Sidebar._height
    Sidebar._dockedSize].
  destruct (String.eqb p "left"), (String.eqb p "right"), (String.eqb p "top"),
    (String.eqb p "bottom"), m, o, d, isd; reflexivity.
Qed.

Lemma visit_heightStyle v s :
  Vars.heightStyle (visit v s)
  = if contributes s && slideOpened s && negb (isLeftOrRight s)
    then Some (offsetDim s) else Vars.heightStyle v.
Proof.
  unfold_visit.
  destruct s as [p m o d sb cb isd wd ht ds]; cbn [Sidebar.position Sidebar.mode
    Sidebar.opened Sidebar.dock Sidebar._isDocked Sidebar._width Sidebar._height
    Sidebar._dockedSize].
  destruct (String.eqb p "left"), (String.eqb p "right"), (String.eqb p "top"),
    (String.eqb p "bottom"), m, o, d, isd; reflexivity.
Qed.

Lemma visit_sides v s :
  Vars.left (visit v s) = bump "left" (Vars.left v) s
  /\ Vars.right (visit v s) = bump "right" (Vars.right v) s
  /\ Vars.top (visit v s) = bump "top" (Vars.top v) s
  /\ Vars.bottom (visit v s) = bump "bottom" (Vars.bottom v) s.
Proof.
  unfold bump. unfold_visit.
  destruct s as [p m o d sb cb isd wd ht ds]; cbn [Sidebar.position Sidebar.mode
    Sidebar.opened Sidebar.dock Sidebar._isDocked Sidebar._width Sidebar._height
    Sidebar._dockedSize].
  destruct (String.eqb_spec p "left") as [->|?];
  [|destruct (String.eqb_spec p "right") as [->|?];
    [|destruct (String.eqb_spec p "top") as [->|?];
      [|destruct (String.eqb_spec p "bottom") as [->|?]]]];
  destruct m, o, d, isd; cbn;
  repeat split;
  repeat match goal with
         | |- context [bool_decide ?P] =>
             first [rewrite (bool_decide_eq_true_2 P) by (split; [reflexivity|congruence])
                   |rewrite (bool_decide_eq_false_2 P) by (intros [? ?]; congruence)]
         end; reflexivity.
Qed.

(** ** The whole loop, variable by variable *)

Lemma visitAll_snoc l o v :
  visitAll (l ++ [o]) v
  = match o with None => visitAll l v | Some s => visit (visitAll l v) s end.
Proof. unfold visitAll. by rewrite fold_left_app. Qed.

Lemma omap_id_snoc {A} (l : list (option A)) o :
  omap id (l ++ [o]) = omap id l ++ match o with Some s => [s] | None => [] end.
Proof. rewrite omap_app. by destruct o. Qed.

Lemma visitAll_transformStyle l v :
  Vars.transformStyle (visitAll l v)
  = match last (filter (fun s => slideOpened s = true) (omap id l)) with
    | Some s => Some (slideTransform s)
    | None => Vars.transformStyle v
    end.
Proof.
  induction l as [|o l IH] using rev_ind; [done|].
  rewrite visitAll_snoc, omap_id_snoc, filter_app.
  destruct o as [s|]; [|by rewrite app_nil_r].
  rewrite visit_transformStyle, IH.
  rewrite filter_cons, filter_nil.
  destruct (decide (slideOpened s = true)) as [E|E].
  - by rewrite E, last_snoc.
  - apply not_true_is_false in E. by rewrite E, app_nil_r.
Qed.

Lemma visitAll_sides l v :
  Vars.left (visitAll l v) = fold_left (bump "left") (omap id l) (Vars.left v)
  /\ Vars.right (visitAll l v) = fold_left (bump "right") (omap id l) (Vars.right v)
  /\ Vars.top (visitAll l v) = fold_left (bump "top") (omap id l) (Vars.top v)
  /\ Vars.bottom (visitAll l v)
     = fold_left (bump "bottom") (omap id l) (Vars.bottom v).
Proof.
  induction l as [|o l IH] using rev_ind; [done|].
  rewrite visitAll_snoc, omap_id_snoc.
  destruct o as [s|]; [|by rewrite app_nil_r].
  rewrite !fold_left_app. cbn [fold_left].
  destruct IH as (<- & <- & <- & <-). apply visit_sides.
Qed.

Lemma fold_bump side l acc :
  fold_left (bump side) l acc = fold_left Z.max (reservedAt side l) acc.
Proof.
  revert acc. induction l as [|s l IH]; intros acc; [done|].
  cbn [fold_left]. rewrite IH. unfold reservedAt, bump.
  rewrite filter_cons.
  destruct (decide (contributes s = true /\ Sidebar.position s = side)) as [E|E].
  - by rewrite bool_decide_eq_true_2.
  - by rewrite bool_decide_eq_false_2.
Qed.

(** ** [Math.max] folded over a list *)

Lemma fold_max_ge l a : a <= fold_left Z.max l a.
Proof.
  revert a. induction l as [|x l IH]; intros a; cbn; [lia|].
  specialize (IH (Z.max a x)). lia.
Qed.

Lemma fold_max_upper l a : Forall (fun x => x <= fold_left Z.max l a) l.
Proof.
  revert a. induction l as [|x l IH]; intros a; cbn; constructor; [|apply IH].
  pose proof (fold_max_ge l (Z.max a x)). lia.
Qed.

Lemma fold_max_attained l a :
  fold_left Z.max l a = a \/ fold_left Z.max l a ∈ l.
Proof.
  revert a. induction l as [|x l IH]; intros a; cbn; [by left|].
  destruct (IH (Z.max a x)) as [E|E].
  - rewrite E. destruct (Z.max_spec a x) as [[_ ->]|[_ ->]].
    + right. by left.
    + by left.
  - right. by right.
Qed.

Lemma fold_max_maxOrZero l :
  Forall (fun x => 0 <= x) l -> maxOrZero (fold_left Z.max l 0) l.
Proof.
  intros Hl. destruct l as [|x l]; [done|].
  unfold maxOrZero. split; [|apply fold_max_upper].
  destruct (fold_max_attained (x :: l) 0) as [E|E]; [|done].
  pose proof (fold_max_upper (x :: l) 0) as Hu.
  rewrite E in *. inversion Hl; subst. inversion Hu; subst.
  assert (x = 0) as -> by lia. by left.
Qed.

Lemma paddingAmt_nonneg s : sizesNonneg s -> 0 <= paddingAmt s.
Proof.
  intros (? & ? & ?). unfold paddingAmt.
  repeat match goal with |- context [if ?b then _ else _] => destruct b end; lia.
Qed.

Lemma reservedAt_nonneg side l :
  Forall sizesNonneg l -> Forall (fun x => 0 <= x) (reservedAt side l).
Proof.
  intros H. unfold reservedAt. apply Forall_fmap, Forall_forall.
  intros s [_ Hs]%list_elem_of_filter. apply paddingAmt_nonneg.
  by eapply Forall_forall in H.
Qed.

(** ** Padding *)

Lemma getContentStyles_padding w :
  exists st,
    _getContentStyles w = Ok st w
    /\ padding st
       = paddingString
           (fold_left Z.max (reservedAt "top" (livePanels w)) 0)
           (fold_left Z.max (reservedAt "right" (livePanels w)) 0)
           (fold_left Z.max (reservedAt "bottom" (livePanels w)) 0)
           (fold_left Z.max (reservedAt "left" (livePanels w)) 0).
Proof.
  eexists. split; [apply getContentStyles_eq|].
  cbn [padding styleOfVars]. unfold paddingString, livePanels.
  destruct (visitAll_sides (panels w) Vars.init) as (-> & -> & -> & ->).
  by rewrite !fold_bump.
Qed.

(** C1. Whatever the tracked panels (with non-negative pixel sizes), the
    padding of the computed style is [top right bottom left] where each
    side's amount is the maximum of the amounts [paddingAmt] of the panels
    at that position that need space reserved (push and opened, or dock),
    and 0 when there is none: it is one of the individual amounts, never
    their sum. *)
Theorem padding_is_side_maximum w :
  Forall sizesNonneg (livePanels w) ->
  exists top right bottom left st,
    _getContentStyles w = Ok st w
    /\ padding st = paddingString top right bottom left
    /\ maxOrZero top (reservedAt "top" (livePanels w))
    /\ maxOrZero right (reservedAt "right" (livePanels w))
    /\ maxOrZero bottom (reservedAt "bottom" (livePanels w))
    /\ maxOrZero left (reservedAt "left" (livePanels w)).
Proof.
  intros Hnn. destruct (getContentStyles_padding w) as (st & Hst & Hpad).
  do 4 eexists. exists st. split; [exact Hst|]. split; [exact Hpad|].
  repeat split; apply fold_max_maxOrZero, reservedAt_nonneg, Hnn.
Qed.

Lemma padding_is_side_maximum_witness :
  Forall sizesNonneg (livePanels twoPushLeft)
  /\ exists top right bottom left st,
       _getContentStyles twoPushLeft = Ok st twoPushLeft
       /\ padding st = paddingString top right bottom left
       /\ maxOrZero top (reservedAt "top" (livePanels twoPushLeft))
       /\ maxOrZero right (reservedAt "right" (livePanels twoPushLeft))
       /\ maxOrZero bottom (reservedAt "bottom" (livePanels twoPushLeft))
       /\ maxOrZero left (reservedAt "left" (livePanels twoPushLeft)).
Proof.
  assert (Forall sizesNonneg (livePanels twoPushLeft)) as H.
  { repeat constructor; vm_compute; discriminate. }
  split; [exact H|]. exact (padding_is_side_maximum twoPushLeft H).
Defined.

(** The example of the specification: widths 200 and 80 give 200, not 280. *)
Example padding_twoPushLeft :
  exists st, _getContentStyles twoPushLeft = Ok st twoPushLeft
             /\ padding st = "0px 0px 0px 200px".
Proof. eexists. split; [apply getContentStyles_eq|]. by vm_compute. Qed.

(** ** Transform *)

Lemma getContentStyles_transform w :
  exists st,
    _getContentStyles w = Ok st w
    /\ webkitTransform st = transform st
    /\ transform st = slideTransform <$> last (slideOpenedPanels w).
Proof.
  eexists. split; [apply getContentStyles_eq|]. split; [done|].
  cbn [transform styleOfVars]. rewrite visitAll_transformStyle.
  unfold slideOpenedPanels, livePanels. by destruct (last _).
Qed.

(** C9. With two or more open slide-mode panels, the style carries one
    transform (and the same value under its prefixed alias): the one of
    the last such panel in iteration order. *)
Theorem last_slide_panel_wins w :
  (2 <= length (slideOpenedPanels w))%nat ->
  exists s st,
    last (slideOpenedPanels w) = Some s
    /\ _getContentStyles w = Ok st w
    /\ transform st = Some (slideTransform s)
    /\ webkitTransform st = Some (slideTransform s).
Proof.
  intros Hlen. destruct (getContentStyles_transform w) as (st & Hst & Hwk & Htr).
  destruct (last (slideOpenedPanels w)) as [s|] eqn:Hlast.
  - exists s, st. by rewrite Hwk, Htr.
  - apply last_None in Hlast. rewrite Hlast in Hlen. cbn in Hlen. lia.
Qed.

Lemma last_slide_panel_wins_witness :
  (2 <= length (slideOpenedPanels twoSlides))%nat
  /\ exists s st,
       last (slideOpenedPanels twoSlides) = Some s
       /\ _getContentStyles twoSlides = Ok st twoSlides
       /\ transform st = Some (slideTransform s)
       /\ webkitTransform st = Some (slideTransform s).
Proof.
  assert (2 <= length (slideOpenedPanels twoSlides))%nat as H.
  { vm_compute. constructor. }
  split; [exact H|]. exact (last_slide_panel_wins twoSlides H).
Defined.

Example transform_twoSlides :
  exists st, _getContentStyles twoSlides = Ok st twoSlides
             /\ transform st = Some "translateY(-120px)".
Proof. eexists. split; [apply getContentStyles_eq|]. by vm_compute. Qed.

(** C3, as the code has it. For the open slide-mode panel that is last in
    iteration order, the transform is along X with magnitude [_width] for
    left and right, along Y with magnitude [_height] for top and bottom;
    it is unsigned (positive) for left and top, and carries a minus sign
    for right and bottom. *)
Theorem slide_transform_direction w s :
  last (slideOpenedPanels w) = Some s ->
  exists st,
    _getContentStyles w = Ok st w
    /\ webkitTransform st = transform st
    /\ (Sidebar.position s = "left" ->
        transform st = Some ("translateX(" +:+ pretty (Sidebar._width s) +:+ "px)"))
    /\ (Sidebar.position s = "right" ->
        transform st = Some ("translateX(-" +:+ pretty (Sidebar._width s) +:+ "px)"))
    /\ (Sidebar.position s = "top" ->
        transform st = Some ("translateY(" +:+ pretty (Sidebar._height s) +:+ "px)"))
    /\ (Sidebar.position s = "bottom" ->
        transform st = Some ("translateY(-" +:+ pretty (Sidebar._height s) +:+ "px)")).
Proof.
  intros Hlast. destruct (getContentStyles_transform w) as (st & Hst & Hwk & Htr).
  exists st. split; [exact Hst|]. split; [exact Hwk|].
  rewrite Htr, Hlast. cbn [fmap option_fmap option_map].
  unfold slideTransform, isLeftOrRight, isLeftOrTop.
  repeat split; intros ->; reflexivity.
Qed.

Lemma slide_transform_direction_witness :
  last (slideOpenedPanels oneSlideLeft)
  = Some (panel "left" Sidebar.slide true false 300 0 0)
  /\ exists st,
       _getContentStyles oneSlideLeft = Ok st oneSlideLeft
       /\ webkitTransform st = transform st
       /\ ("left" = "left" -> transform st = Some "translateX(300px)")
       /\ ("left" = "right" -> transform st = Some "translateX(-300px)")
       /\ ("left" = "top" -> transform st = Some "translateY(0px)")
       /\ ("left" = "bottom" -> transform st = Some "translateY(-0px)").
Proof.
  assert (last (slideOpenedPanels oneSlideLeft)
          = Some (panel "left" Sidebar.slide true false 300 0 0)) as H.
  { reflexivity. }
  split; [exact H|]. exact (slide_transform_direction oneSlideLeft _ H).
Defined.

(** C3, as the specification words it (negative for left), fails: an open
    slide-mode panel on the left, 300 wide, yields [translateX(300px)]. *)
Lemma slide_transform_left_is_positive :
  exists st,
    _getContentStyles oneSlideLeft = Ok st oneSlideLeft
    /\ transform st = Some "translateX(300px)"
    /\ transform st <> Some "translateX(-300px)".
Proof.
  eexists. split; [apply getContentStyles_eq|]. split; [by vm_compute|].
  vm_compute. discriminate.
Qed.

Lemma panels_single w r s :
  _sidebars (this w) = [Some r] -> heap w !! r = Some s -> panels w = [Some s].
Proof. intros Hl Hr. unfold panels. rewrite Hl. cbn. by rewrite Hr. Qed.

(** C5. A container tracking a single panel that is in slide mode, on the
    left, 300 wide, opened and not docked computes the transform
    [translateX(300px)] and a left padding of 0 (all four amounts are 0). *)
Theorem single_slide_left w r s :
  _sidebars (this w) = [Some r] ->
  heap w !! r = Some s ->
  Sidebar.mode s = Sidebar.slide ->
  Sidebar.position s = "left" ->
  Sidebar._width s = 300 ->
  Sidebar.opened s = true ->
  Sidebar.dock s = false ->
  exists st,
    _getContentStyles w = Ok st w
    /\ transform st = Some "translateX(300px)"
    /\ padding st = "0px 0px 0px 0px".
Proof.
  intros Hl Hr Hmode Hpos Hwidth Hopened Hdock.
  eexists. split; [apply getContentStyles_eq|].
  rewrite (panels_single w r s Hl Hr). cbn [visitAll fold_left].
  unfold visit, Sidebar._isModeSlide, Sidebar._isModePush, Sidebar._isModeOver.
  rewrite Hmode, Hpos, Hwidth, Hopened, Hdock. by vm_compute.
Qed.

Lemma single_slide_left_witness :
  exists st,
    _getContentStyles oneSlideLeft = Ok st oneSlideLeft
    /\ transform st = Some "translateX(300px)"
    /\ padding st = "0px 0px 0px 0px".
Proof.
  apply (single_slide_left oneSlideLeft 0%nat
           (panel "left" Sidebar.slide true false 300 0 0));
    reflexivity.
Defined.

(** ** Sized override of a docked slide-mode panel *)

(** The accumulators never go below 0. *)
Lemma bump_nonneg side acc s : 0 <= acc -> 0 <= bump side acc s.
Proof. unfold bump. case_bool_decide; lia. Qed.

(** An open slide-mode panel leaves a non-negative accumulator as it is:
    its [paddingAmt] is 0. *)
Lemma bump_slideOpened side acc s :
  slideOpened s = true -> 0 <= acc -> bump side acc s = acc.
Proof.
  intros Hs Hacc. unfold bump, paddingAmt. rewrite Hs. case_bool_decide; lia.
Qed.

Lemma fold_bump_nonneg side l : forall acc,
  0 <= acc -> 0 <= fold_left (bump side) l acc.
Proof.
  induction l as [|s l IH]; intros acc Hacc; [done|].
  cbn [fold_left]. by apply IH, bump_nonneg.
Qed.

Lemma visitAll_sides_nonneg l :
  0 <= Vars.left (visitAll l Vars.init)
  /\ 0 <= Vars.right (visitAll l Vars.init)
  /\ 0 <= Vars.top (visitAll l Vars.init)
  /\ 0 <= Vars.bottom (visitAll l Vars.init).
Proof.
  destruct (visitAll_sides l Vars.init) as (-> & -> & -> & ->).
  repeat split; by apply fold_bump_nonneg.
Qed.

Lemma visit_slideOpened_sides v s :
  slideOpened s = true ->
  0 <= Vars.left v -> 0 <= Vars.right v -> 0 <= Vars.top v -> 0 <= Vars.bottom v ->
  Vars.left (visit v s) = Vars.left v
  /\ Vars.right (visit v s) = Vars.right v
  /\ Vars.top (visit v s) = Vars.top v
  /\ Vars.bottom (visit v s) = Vars.bottom v.
Proof.
  intros Hs ? ? ? ?. destruct (visit_sides v s) as (-> & -> & -> & ->).
  by rewrite !bump_slideOpened.
Qed.

(** A contributing open slide-mode panel sets the override of its axis to
    [offsetDim], the text built on line 157. *)
Lemma visit_slideOpened_override v s :
  slideOpened s = true -> contributes s = true ->
  if isLeftOrRight s
  then Vars.widthStyle (visit v s) = Some (offsetDim s)
  else Vars.heightStyle (visit v s) = Some (offsetDim s).
Proof.
  intros Hs Hc. rewrite visit_widthStyle, visit_heightStyle, Hs, Hc.
  by destruct (isLeftOrRight s).
Qed.

(** C4, on the code. For a single open slide-mode panel on the left with
    [dock] set and a docked size of 56, the width of the style is the text
    [calc(100% - 56px] without the closing parenthesis, which is not the
    expression [calc(100% - 56px)]; the padding stays at 0 on all sides. *)
Theorem docked_slide_width_lacks_parenthesis :
  exists st,
    _getContentStyles dockedSlideLeft = Ok st dockedSlideLeft
    /\ width st = Some "calc(100% - 56px"
    /\ width st <> Some "calc(100% - 56px)"
    /\ height st = None
    /\ padding st = "0px 0px 0px 0px".
Proof.
  eexists. split; [apply getContentStyles_eq|].
  split; [by vm_compute|]. split; [vm_compute; discriminate|].
  split; by vm_compute.
Qed.

(** ** Purity of the style computation *)

Lemma getContentStyles_depends_on_panels w w' :
  panels w' = panels w ->
  forall st, _getContentStyles w = Ok st w -> _getContentStyles w' = Ok st w'.
Proof.
  intros Hp st. rewrite !getContentStyles_eq, Hp. by intros [= <-].
Qed.

(** C10. The style computation returns a style and leaves the world as it
    found it (the container's fields, the panels, the log of outside
    calls); the style is a function of the tracked panels' values alone,
    so that a second invocation, or an invocation in any world with the
    same tracked panels, returns the same record. *)
Theorem getContentStyles_pure w :
  exists st,
    _getContentStyles w = Ok st w
    /\ (st1 ← _getContentStyles; st2 ← _getContentStyles; mret (st1, st2)) w
       = Ok (st, st) w
    /\ forall w', panels w' = panels w -> _getContentStyles w' = Ok st w'.
Proof.
  eexists. split; [apply getContentStyles_eq|]. split.
  - erewrite bind_Ok by apply getContentStyles_eq.
    erewrite bind_Ok by apply getContentStyles_eq. reflexivity.
  - intros w' Hp. eapply getContentStyles_depends_on_panels; [exact Hp|].
    apply getContentStyles_eq.
Qed.

(** ** Backdrop arbitration *)

Lemma onToggle_some w l :
  Forall (fun sidebar => is_Some (panelAt (heap w) sidebar)) l ->
  some (fun sidebar => s ← deref sidebar;
                       mret (Sidebar.opened s && Sidebar.showBackdrop s)) l w
  = Ok (existsb wantsBackdrop (omap id (map (panelAt (heap w)) l))) w.
Proof.
  induction 1 as [|o l [s Hs] _ IH]; [done|].
  cbn [some map omap]. unfold mbind at 1, M_bind at 1.
  unfold mbind at 1, M_bind at 1, deref at 1. rewrite Hs.
  cbn [omap list_omap id existsb]. fold (wantsBackdrop s).
  destruct (wantsBackdrop s); [done|]. apply IH.
Qed.

Lemma onToggle_eq w :
  (allowSidebarBackdropControl (this w) = true -> allLive w) ->
  _onToggle w
  = Ok tt
      (if allowSidebarBackdropControl (this w) then
         mkWorld (set_showBackdrop (existsb wantsBackdrop (livePanels w)) (this w))
           (heap w)
           ((calls w
             ++ [ShowBackdropChangeEmit (existsb wantsBackdrop (livePanels w))])
            ++ [SetTimeoutMarkForCheck])
       else mkWorld (this w) (heap w) (calls w ++ [SetTimeoutMarkForCheck])).
Proof.
  intros Hlive. unfold _onToggle.
  unfold mbind at 1, M_bind at 1, get_this.
  destruct (allowSidebarBackdropControl (this w)) eqn:Hallow; [|done].
  unfold mbind at 1, M_bind at 1. unfold mbind at 1, M_bind at 1.
  by rewrite (onToggle_some w _ (Hlive eq_refl)).
Qed.

Lemma existsb_wantsBackdrop l :
  existsb wantsBackdrop l = true
  <-> exists s, s ∈ l /\ Sidebar.opened s = true /\ Sidebar.showBackdrop s = true.
Proof.
  rewrite existsb_exists. unfold wantsBackdrop. split.
  - intros (s & Hin & [? ?]%andb_true_iff). exists s.
    by rewrite list_elem_of_In.
  - intros (s & Hin & Ho & Hs). exists s. rewrite <- list_elem_of_In.
    by rewrite Ho, Hs.
Qed.

(** C2. [_onToggle] completes (when it reads the panels, every tracked
    reference must denote one), touching neither the panels nor the
    array. If [allowSidebarBackdropControl] is true, [showBackdrop] becomes
    true iff some tracked panel is opened and asks for the backdrop, and
    that value is emitted. If it is false, the container is left exactly
    as it was, so [showBackdrop] is what it was last set to, and nothing
    is emitted. In both cases the deferred [markForCheck] is scheduled.
    Together: [showBackdrop] is true afterwards iff either control is
    allowed and such a panel exists, or control is not allowed and it was
    true before. *)
Theorem onToggle_backdrop w :
  (allowSidebarBackdropControl (this w) = true -> allLive w) ->
  exists w',
    _onToggle w = Ok tt w'
    /\ heap w' = heap w
    /\ _sidebars (this w') = _sidebars (this w)
    /\ (allowSidebarBackdropControl (this w) = true ->
        (showBackdrop (this w') = true
         <-> exists s, s ∈ livePanels w
                       /\ Sidebar.opened s = true
                       /\ Sidebar.showBackdrop s = true)
        /\ calls w' = calls w ++ [ShowBackdropChangeEmit (showBackdrop (this w'));
                                  SetTimeoutMarkForCheck])
    /\ (allowSidebarBackdropControl (this w) = false ->
        this w' = this w
        /\ calls w' = calls w ++ [SetTimeoutMarkForCheck])
    /\ (showBackdrop (this w') = true
        <-> (allowSidebarBackdropControl (this w) = true
             /\ exists s, s ∈ livePanels w
                          /\ Sidebar.opened s = true
                          /\ Sidebar.showBackdrop s = true)
            \/ (allowSidebarBackdropControl (this w) = false
                /\ showBackdrop (this w) = true)).
Proof.
  intros Hlive. eexists. split; [by apply onToggle_eq|].
  destruct (allowSidebarBackdropControl (this w)); cbn.
  - repeat split; try done.
    + by intros ?%existsb_wantsBackdrop.
    + by intros ?%existsb_wantsBackdrop.
    + by rewrite <- app_assoc.
    + intros ?%existsb_wantsBackdrop. by left.
    + intros [[_ ?%existsb_wantsBackdrop]|[? _]]; done.
  - repeat split; try done.
    + intros ?. by right.
    + intros [[? _]|[_ ?]]; done.
Qed.

Lemma onToggle_backdrop_witness :
  (allowSidebarBackdropControl (this threeOpen) = true -> allLive threeOpen)
  /\ exists w',
       _onToggle threeOpen = Ok tt w'
       /\ heap w' = heap threeOpen
       /\ _sidebars (this w') = _sidebars (this threeOpen)
       /\ (allowSidebarBackdropControl (this threeOpen) = true ->
           (showBackdrop (this w') = true
            <-> exists s, s ∈ livePanels threeOpen
                          /\ Sidebar.opened s = true
                          /\ Sidebar.showBackdrop s = true)
           /\ calls w' = calls threeOpen
                         ++ [ShowBackdropChangeEmit (showBackdrop (this w'));
                             SetTimeoutMarkForCheck])
       /\ (allowSidebarBackdropControl (this threeOpen) = false ->
           this w' = this threeOpen
           /\ calls w' = calls threeOpen ++ [SetTimeoutMarkForCheck])
       /\ (showBackdrop (this w') = true
           <-> (allowSidebarBackdropControl (this threeOpen) = true
                /\ exists s, s ∈ livePanels threeOpen
                             /\ Sidebar.opened s = true
                             /\ Sidebar.showBackdrop s = true)
               \/ (allowSidebarBackdropControl (this threeOpen) = false
                   /\ showBackdrop (this threeOpen) = true)).
Proof.
  assert (allowSidebarBackdropControl (this threeOpen) = true -> allLive threeOpen)
    as H.
  { intros _. repeat constructor; vm_compute; eexists; reflexivity. }
  split; [exact H|]. exact (onToggle_backdrop threeOpen H).
Defined.

(** The examples of the specification. With control allowed, one closed
    panel and one open panel asking for the backdrop: [showBackdrop]
    becomes true and [true] is emitted. With control not allowed and
    [showBackdrop] set to true from outside: it stays true and nothing is
    emitted. *)
Example onToggle_arbitrates :
  exists w',
    _onToggle closedAndOpen = Ok tt w'
    /\ showBackdrop (this w') = true
    /\ calls w' = [ShowBackdropChangeEmit true; SetTimeoutMarkForCheck].
Proof. eexists. split; [by vm_compute|]. split; reflexivity. Qed.

Example onToggle_keeps_external_backdrop :
  _onToggle externallyShown
  = Ok tt (mkWorld (this externallyShown) (heap externallyShown)
             [SetTimeoutMarkForCheck]).
Proof. reflexivity. Qed.

(** ** Click on the backdrop *)

Lemma filter_ext_elem {A} (P Q : A -> Prop) `{!forall x, Decision (P x)}
    `{!forall x, Decision (Q x)} (l : list A) :
  (forall x, x ∈ l -> P x <-> Q x) -> filter P l = filter Q l.
Proof.
  induction l as [|x l IH]; intros Hext; [done|].
  rewrite !filter_cons.
  assert (P x <-> Q x) as Hx by (apply Hext; by left).
  rewrite IH by (intros y Hy; apply Hext; by right).
  destruct (decide (P x)), (decide (Q x)); tauto.
Qed.

Lemma panelAt_alter f r h o :
  is_Some (panelAt h o) -> is_Some (panelAt (alter f r h) o).
Proof.
  destruct o as [r'|]; cbn; [|done]. intros [s Hs]. rewrite lookup_alter.
  case_decide; subst; rewrite Hs; by eexists.
Qed.

Lemma closesOnClickAt_alter_ne f r r' h :
  r <> r' -> closesOnClickAt (alter f r h) r' = closesOnClickAt h r'.
Proof. intros Hne. unfold closesOnClickAt. by rewrite lookup_alter_ne. Qed.

Lemma elem_of_refsOf r l : r ∈ refsOf l <-> Some r ∈ l.
Proof.
  unfold refsOf. rewrite list_elem_of_omap. split.
  - by intros ([r'|] & Hin & [= ->]).
  - intros Hin. by exists (Some r).
Qed.

Lemma onBackdropClicked_loop l : forall w,
  Forall (fun sidebar => is_Some (panelAt (heap w) sidebar)) l ->
  NoDup l ->
  forEach
    (fun sidebar =>
       s ← deref sidebar;
       if Sidebar.opened s && Sidebar.showBackdrop s
          && Sidebar.closeOnClickBackdrop s
       then close sidebar
       else mret tt) l w
  = Ok tt
      (mkWorld (this w)
         (closeAll (filter (fun r => closesOnClickAt (heap w) r = true) (refsOf l))
                   (heap w))
         (calls w
          ++ map Close
               (filter (fun r => closesOnClickAt (heap w) r = true) (refsOf l)))).
Proof.
  induction l as [|o l IH]; intros w Hlive Hnd.
  { cbn. rewrite app_nil_r. by destruct w. }
  apply Forall_cons in Hlive as [[s Hs] Hlive]. apply NoDup_cons in Hnd as [Hnotin Hnd].
  destruct o as [r|]; [|done]. cbn in Hs.
  cbn [forEach]. unfold mbind at 1, M_bind at 1.
  unfold mbind at 1, M_bind at 1, deref at 1. cbn [panelAt]. rewrite Hs.
  unfold refsOf. cbn [omap list_omap id]. fold (refsOf l).
  rewrite filter_cons. fold (closesOnClick s).
  assert (closesOnClickAt (heap w) r = closesOnClick s) as Hat.
  { unfold closesOnClickAt. by rewrite Hs. }
  destruct (decide (closesOnClickAt (heap w) r = true)) as [Hc|Hc];
    rewrite Hat in Hc.
  - rewrite Hc. unfold close. cbn [panelAt]. rewrite Hs.
    rewrite IH; cbn [this heap calls].
    + rewrite (filter_ext_elem
                 (fun r0 => closesOnClickAt
                              (alter (Sidebar.set_opened false) r (heap w)) r0 = true)
                 (fun r0 => closesOnClickAt (heap w) r0 = true)).
      * cbn [map closeAll fold_left]. by rewrite <- app_assoc.
      * intros r' Hr'. rewrite closesOnClickAt_alter_ne; [done|].
        intros ->. by apply Hnotin, elem_of_refsOf.
    + eapply Forall_impl; [exact Hlive|]. intros o. apply panelAt_alter.
    + exact Hnd.
  - apply not_true_is_false in Hc. rewrite Hc.
    cbn [mret M_ret]. by rewrite IH.
Qed.

Lemma alter_set_opened_twice (x : option Sidebar.t) :
  Sidebar.set_opened false <$> (Sidebar.set_opened false <$> x)
  = Sidebar.set_opened false <$> x.
Proof. by destruct x. Qed.

Lemma closeAll_lookup rs : forall h r,
  closeAll rs h !! r
  = if bool_decide (r ∈ rs) then Sidebar.set_opened false <$> h !! r else h !! r.
Proof.
  induction rs as [|a rs IH]; intros h r; [done|].
  cbn [closeAll fold_left]. fold (closeAll rs (alter (Sidebar.set_opened false) a h)).
  rewrite IH, lookup_alter.
  destruct (decide (a = r)) as [->|Hne].
  - rewrite (bool_decide_eq_true_2 (r ∈ r :: rs)) by by left.
    case_bool_decide; [apply alter_set_opened_twice|done].
  - destruct (decide (r ∈ rs)) as [Hin|Hnin].
    + rewrite !bool_decide_eq_true_2; [done| by right | done].
    + rewrite !bool_decide_eq_false_2; [done| |done].
      intros [->|?]%elem_of_cons; done.
Qed.

(** C6. When every tracked reference denotes a panel and no panel is
    tracked twice, a click on the backdrop calls [close()] on exactly the
    tracked panels with [opened && showBackdrop && closeOnClickBackdrop],
    in iteration order, and makes no other call; those panels end up
    closed and every other panel is as it was. *)
Theorem backdrop_click_closes_qualifying w :
  allLive w ->
  NoDup (_sidebars (this w)) ->
  exists w',
    _onBackdropClicked w = Ok tt w'
    /\ this w' = this w
    /\ calls w' = calls w ++ map Close (closedByClick w)
    /\ forall r,
         heap w' !! r
         = if bool_decide (r ∈ closedByClick w)
           then Sidebar.set_opened false <$> heap w !! r
           else heap w !! r.
Proof.
  intros Hlive Hnd. eexists. split.
  - unfold _onBackdropClicked. unfold mbind at 1, M_bind at 1, get_this.
    by apply onBackdropClicked_loop.
  - cbn [this heap calls]. repeat split. intros r. apply closeAll_lookup.
Qed.

Lemma backdrop_click_closes_qualifying_witness :
  allLive threeOpen
  /\ NoDup (_sidebars (this threeOpen))
  /\ exists w',
       _onBackdropClicked threeOpen = Ok tt w'
       /\ this w' = this threeOpen
       /\ calls w' = calls threeOpen ++ map Close (closedByClick threeOpen)
       /\ forall r,
            heap w' !! r
            = if bool_decide (r ∈ closedByClick threeOpen)
              then Sidebar.set_opened false <$> heap threeOpen !! r
              else heap threeOpen !! r.
Proof.
  assert (allLive threeOpen) as H.
  { repeat constructor; vm_compute; eexists; reflexivity. }
  assert (NoDup (_sidebars (this threeOpen))) as Hnd.
  { apply (bool_decide_unpack _). vm_compute. exact I. }
  split; [exact H|]. split; [exact Hnd|].
  exact (backdrop_click_closes_qualifying threeOpen H Hnd).
Defined.

(** The example of the specification: of three open panels asking for the
    backdrop, the first and third (which have [closeOnClickBackdrop])
    receive [close()], the second does not and stays open. *)
Example backdrop_click_threeOpen :
  exists w',
    _onBackdropClicked threeOpen = Ok tt w'
    /\ calls w' = [Close 0%nat; Close 2%nat]
    /\ Sidebar.opened <$> heap w' !! 0%nat = Some false
    /\ Sidebar.opened <$> heap w' !! 1%nat = Some true
    /\ Sidebar.opened <$> heap w' !! 2%nat = Some false.
Proof. eexists. split; [by vm_compute|]. repeat split; by vm_compute. Qed.

(** ** Falsy entries of the array *)

(** [_getContentStyles] skips them: the style is the one computed from the
    entries that denote a panel. *)
Lemma visitAll_skips_null l v :
  visitAll l v = fold_left visit (omap id l) v.
Proof.
  revert v. induction l as [|[s|] l IH]; intros v; [done| |]; cbn; apply IH.
Qed.

Lemma getContentStyles_skips_null w :
  _getContentStyles w
  = Ok (styleOfVars (fold_left visit (livePanels w) Vars.init)) w.
Proof. rewrite getContentStyles_eq. by rewrite visitAll_skips_null. Qed.

(** [_unsubscribe] skips them too, and never throws. *)
Lemma unsubscribe_one w r s :
  heap w !! r = Some s ->
  (callOn (Some r) (fun r => Unsubscribe r onOpenStart) ;;
   callOn (Some r) (fun r => Unsubscribe r onOpened) ;;
   callOn (Some r) (fun r => Unsubscribe r onCloseStart) ;;
   callOn (Some r) (fun r => Unsubscribe r onClosed) ;;
   callOn (Some r) (fun r => Unsubscribe r onModeChange) ;;
   callOn (Some r) (fun r => Unsubscribe r onPositionChange) ;;
   callOn (Some r) (fun r => Unsubscribe r _onRerender)) w
  = Ok tt (mkWorld (this w) (heap w) (calls w ++ unsubscribeCalls r)).
Proof.
  intros Hr. unfold callOn, call, mbind, M_bind.
  repeat (cbn [panelAt heap this calls]; rewrite Hr).
  cbn [panelAt heap this calls]. unfold unsubscribeCalls.
  by rewrite <- !app_assoc.
Qed.

Lemma unsubscribe_loop l : forall w,
  forEach
    (fun sidebar =>
       s ← load sidebar;
       match s with
       | None => mret tt
       | Some _ =>
           callOn sidebar (fun r => Unsubscribe r onOpenStart) ;;
           callOn sidebar (fun r => Unsubscribe r onOpened) ;;
           callOn sidebar (fun r => Unsubscribe r onCloseStart) ;;
           callOn sidebar (fun r => Unsubscribe r onClosed) ;;
           callOn sidebar (fun r => Unsubscribe r onModeChange) ;;
           callOn sidebar (fun r => Unsubscribe r onPositionChange) ;;
           callOn sidebar (fun r => Unsubscribe r _onRerender)
       end) l w
  = Ok tt
      (mkWorld (this w) (heap w)
         (calls w
          ++ flat_map unsubscribeCalls
               (filter (fun r => is_Some (heap w !! r)) (refsOf l)))).
Proof.
  induction l as [|o l IH]; intros w.
  { cbn. rewrite app_nil_r. by destruct w. }
  cbn [forEach].
  destruct o as [r|]; [|by erewrite bind_Ok by reflexivity].
  unfold refsOf. cbn [omap list_omap id]. fold (refsOf l). rewrite filter_cons.
  destruct (heap w !! r) as [s|] eqn:Hr.
  - destruct (decide (is_Some (Some s))) as [_|Hn]; [|by destruct Hn].
    erewrite bind_Ok.
    2:{ erewrite bind_Ok by reflexivity. cbn [panelAt]. rewrite Hr.
        by apply (unsubscribe_one w r s). }
    rewrite IH. cbn [this heap calls flat_map]. by rewrite <- app_assoc.
  - destruct (decide (is_Some (@None Sidebar.t))) as [[? [=]]|_].
    erewrite bind_Ok; [apply IH|].
    erewrite bind_Ok by reflexivity. cbn [panelAt]. by rewrite Hr.
Qed.

Lemma unsubscribe_eq w :
  _unsubscribe w
  = Ok tt (mkWorld (this w) (heap w)
             (calls w ++ flat_map unsubscribeCalls (liveRefs w))).
Proof.
  unfold _unsubscribe. unfold mbind at 1, M_bind at 1, get_this.
  apply unsubscribe_loop.
Qed.

(** [_onBackdropClicked] and [_onToggle] read a property of each entry:
    a falsy first entry makes them throw. *)
Lemma onBackdropClicked_null_first w o l :
  _sidebars (this w) = o :: l ->
  panelAt (heap w) o = None ->
  _onBackdropClicked w = Throw TypeError w.
Proof.
  intros Hl Ho. unfold _onBackdropClicked.
  unfold mbind at 1, M_bind at 1, get_this. rewrite Hl. cbn [forEach].
  unfold mbind at 1, M_bind at 1. unfold mbind at 1, M_bind at 1, deref at 1.
  by rewrite Ho.
Qed.

Lemma onToggle_null_first w o l :
  allowSidebarBackdropControl (this w) = true ->
  _sidebars (this w) = o :: l ->
  panelAt (heap w) o = None ->
  _onToggle w = Throw TypeError w.
Proof.
  intros Hallow Hl Ho. unfold _onToggle.
  unfold mbind at 1, M_bind at 1, get_this. rewrite Hallow, Hl.
  unfold mbind at 1, M_bind at 1. unfold mbind at 1, M_bind at 1.
  cbn [some]. unfold mbind at 1, M_bind at 1.
  unfold mbind at 1, M_bind at 1, deref at 1.
  by rewrite Ho.
Qed.

(** C8, on the code. With [null] in the array of panels, the style
    computation and the unsubscription skip it and complete, but the
    click on the backdrop and the toggle recomputation read
    [sidebar.opened] on it and throw a TypeError. *)
Theorem null_panel_skipped_only_by_some :
  _getContentStyles nullTracked = Ok emptyStyle nullTracked
  /\ _unsubscribe nullTracked = Ok tt nullTracked
  /\ _onBackdropClicked nullTracked = Throw TypeError nullTracked
  /\ _onToggle nullTracked = Throw TypeError nullTracked.
Proof. repeat split; reflexivity. Qed.

(** The array comes to hold [null] when the registration service hands
    one to the callback: the push happens before [_subscribe] throws. *)
Example null_reaches_the_array :
  run [NgAfterContentInit; ServiceRegisters None] browserWorld
  = mkWorld (mkContainer true true false "" "" true [None]) ∅
      [ShowBackdropChangeEmit false; SetTimeoutMarkForCheck; ServiceOnRegister].
Proof. reflexivity. Qed.

(** ** Without a rendering surface *)

Lemma hooks_without_browser w :
  _isBrowser (this w) = false ->
  ngAfterContentInit w = Ok tt w
  /\ (forall changes, ngOnChanges changes w = Ok tt w)
  /\ ngOnDestroy w = Ok tt w.
Proof.
  intros Hb. unfold ngAfterContentInit, ngOnChanges, ngOnDestroy.
  unfold mbind, M_bind, get_this. by rewrite Hb.
Qed.

Lemma idle_style w : idle w -> _getContentStyles w = Ok emptyStyle w.
Proof.
  intros (_ & _ & Hl). rewrite getContentStyles_eq. unfold panels.
  by rewrite Hl.
Qed.

Lemma enter_idle e w : idle w -> idle (worldOf (enter e w)).
Proof.
  intros Hidle. pose proof Hidle as (Hb & Hc & Hl).
  destruct (hooks_without_browser w Hb) as (Hinit & Hchanges & Hdestroy).
  destruct e; cbn [enter].
  - by rewrite Hinit.
  - by rewrite Hchanges.
  - by rewrite Hdestroy.
  - erewrite bind_Ok by (by apply idle_style). done.
  - unfold mbind at 1, M_bind at 1, get_this.
    destruct (showBackdrop (this w)); [|done].
    unfold _onBackdropClicked. unfold mbind at 1, M_bind at 1, get_this.
    by rewrite Hl.
  - by rewrite Hc.
  - by rewrite Hc.
  - done.
  - done.
  - done.
Qed.

Lemma run_idle es : forall w, idle w -> idle (run es w).
Proof.
  induction es as [|e es IH]; intros w Hidle; [done|].
  cbn [run fold_left]. apply IH. by apply enter_idle.
Qed.

(** C7, as the code has it. In a container without a rendering surface
    that has made no outside call and tracks no panel (as its constructor
    leaves it), whatever reaches it (hooks, registration notices, panel
    events, input writes, template calls): no call is made on the outside
    (no [onRegister], no subscription, no [showBackdropChange] event, no
    timer), no panel enters the array, the three lifecycle hooks return
    at once leaving everything as it was, and the style computation,
    which still runs, returns the style of an empty container. *)
Theorem without_browser_nothing_escapes w es :
  idle w ->
  idle (run es w)
  /\ ngAfterContentInit (run es w) = Ok tt (run es w)
  /\ (forall changes, ngOnChanges changes (run es w) = Ok tt (run es w))
  /\ ngOnDestroy (run es w) = Ok tt (run es w)
  /\ _getContentStyles (run es w) = Ok emptyStyle (run es w).
Proof.
  intros Hidle. pose proof (run_idle es w Hidle) as Hrun.
  split; [exact Hrun|].
  destruct (hooks_without_browser (run es w)) as (? & ? & ?); [apply Hrun|].
  repeat split; try done. by apply idle_style.
Qed.

Lemma without_browser_nothing_escapes_witness :
  idle serverWorld
  /\ idle (run serverEntries serverWorld)
  /\ ngAfterContentInit (run serverEntries serverWorld)
     = Ok tt (run serverEntries serverWorld)
  /\ (forall changes,
        ngOnChanges changes (run serverEntries serverWorld)
        = Ok tt (run serverEntries serverWorld))
  /\ ngOnDestroy (run serverEntries serverWorld)
     = Ok tt (run serverEntries serverWorld)
  /\ _getContentStyles (run serverEntries serverWorld)
     = Ok emptyStyle (run serverEntries serverWorld).
Proof.
  assert (idle serverWorld) as H.
  { repeat split. }
  split; [exact H|].
  exact (without_browser_nothing_escapes serverWorld serverEntries H).
Defined.

(** C7, as the specification words it ("no style computation occurs"),
    fails: [_getContentStyles] does not test [_isBrowser]; without a
    rendering surface it still runs and returns a style record. *)
Lemma style_computed_without_browser :
  _isBrowser (this serverWorld) = false
  /\ exists st,
       _getContentStyles serverWorld = Ok st serverWorld
       /\ padding st = "0px 0px 0px 0px".
Proof. split; [reflexivity|]. eexists. split; reflexivity. Qed.

(** The same in the browser: a first [ngAfterContentInit] does emit, and
    installs the registration callback. *)
Example browser_init_emits :
  ngAfterContentInit browserWorld
  = Ok tt (mkWorld (new_container true) ∅
             [ShowBackdropChangeEmit false; SetTimeoutMarkForCheck;
              ServiceOnRegister]).
Proof. reflexivity. Qed.

(* ===================================================================== *)
(** * Further properties of the container *)
(* ===================================================================== *)

(** ** More on the computed style *)

Lemma getContentStyles_sideAmount w :
  exists st,
    _getContentStyles w = Ok st w
    /\ padding st
       = paddingString (sideAmount "top" w) (sideAmount "right" w)
           (sideAmount "bottom" w) (sideAmount "left" w).
Proof. apply getContentStyles_padding. Qed.

(** X1. Whatever the sizes the panels report, even negative ones, no side of
    the padding is negative: the accumulators start at 0 and only grow. *)
Theorem padding_never_negative w :
  exists st,
    _getContentStyles w = Ok st w
    /\ padding st
       = paddingString (sideAmount "top" w) (sideAmount "right" w)
           (sideAmount "bottom" w) (sideAmount "left" w)
    /\ 0 <= sideAmount "top" w /\ 0 <= sideAmount "right" w
    /\ 0 <= sideAmount "bottom" w /\ 0 <= sideAmount "left" w.
Proof.
  destruct (getContentStyles_sideAmount w) as (st & Hst & Hpad).
  exists st. split; [exact Hst|]. split; [exact Hpad|].
  unfold sideAmount. repeat split; apply fold_max_ge.
Qed.

Lemma fold_max_perm l l' :
  l ≡ₚ l' -> forall a, fold_left Z.max l a = fold_left Z.max l' a.
Proof.
  induction 1 as [|x l l' _ IH|x y l|l1 l2 l3 _ IH1 _ IH2]; intros a; cbn.
  - done.
  - apply IH.
  - f_equal. lia.
  - by rewrite IH1.
Qed.

Lemma reservedAt_perm side l l' : l ≡ₚ l' -> reservedAt side l ≡ₚ reservedAt side l'.
Proof. intros H. unfold reservedAt. by rewrite H. Qed.

(** X2. The padding does not depend on the order in which the panels are
    tracked (nor on where falsy entries sit): two containers whose arrays
    are permutations of one another get the same padding. *)
Theorem padding_order_independent w w' :
  panels w ≡ₚ panels w' ->
  exists st st',
    _getContentStyles w = Ok st w
    /\ _getContentStyles w' = Ok st' w'
    /\ padding st = padding st'.
Proof.
  intros Hperm.
  destruct (getContentStyles_sideAmount w) as (st & Hst & Hpad).
  destruct (getContentStyles_sideAmount w') as (st' & Hst' & Hpad').
  exists st, st'. split; [exact Hst|]. split; [exact Hst'|].
  rewrite Hpad, Hpad'. unfold sideAmount, livePanels.
  assert (omap id (panels w) ≡ₚ omap id (panels w')) as Hlive by by rewrite Hperm.
  by rewrite !(fold_max_perm _ _ (reservedAt_perm _ _ _ Hlive)).
Qed.

Lemma padding_order_independent_witness :
  panels twoPushLeft ≡ₚ panels twoPushLeftRev
  /\ exists st st',
       _getContentStyles twoPushLeft = Ok st twoPushLeft
       /\ _getContentStyles twoPushLeftRev = Ok st' twoPushLeftRev
       /\ padding st = padding st'.
Proof.
  assert (panels twoPushLeft ≡ₚ panels twoPushLeftRev) as H.
  { apply perm_swap. }
  split; [exact H|]. exact (padding_order_independent _ _ H).
Defined.

(** ** Panels that change nothing *)

Lemma visit_inert v s : inert s = true -> visit v s = v.
Proof.
  unfold inert. unfold_visit.
  destruct s as [p m o d sb cb isd wd ht ds]; cbn [Sidebar.position Sidebar.mode
    Sidebar.opened Sidebar.dock Sidebar._isDocked Sidebar._width Sidebar._height
    Sidebar._dockedSize].
  by destruct m, o, d.
Qed.

Lemma visitAll_app l1 l2 v : visitAll (l1 ++ l2) v = visitAll l2 (visitAll l1 v).
Proof. unfold visitAll. apply fold_left_app. Qed.

(** X3. A panel that is not open in slide mode and needs no space (closed and
    not docked, or in over mode and not docked) leaves the whole style as
    if it were not tracked, wherever it sits in the array. *)
Theorem inert_panel_changes_nothing w w' l1 l2 s :
  inert s = true ->
  panels w = l1 ++ l2 ->
  panels w' = l1 ++ Some s :: l2 ->
  exists st, _getContentStyles w = Ok st w /\ _getContentStyles w' = Ok st w'.
Proof.
  intros Hs Hw Hw'. eexists. split; [apply getContentStyles_eq|].
  rewrite getContentStyles_eq, Hw, Hw'. rewrite !visitAll_app.
  cbn [visitAll fold_left]. by rewrite visit_inert.
Qed.

Lemma inert_panel_changes_nothing_witness :
  exists st,
    _getContentStyles oneSlideLeft = Ok st oneSlideLeft
    /\ _getContentStyles
         (worldOfPanels (new_container true)
            [panel "left" Sidebar.slide true false 300 0 0;
             panel "right" Sidebar.over true false 120 0 0])
       = Ok st
           (worldOfPanels (new_container true)
              [panel "left" Sidebar.slide true false 300 0 0;
               panel "right" Sidebar.over true false 120 0 0]).
Proof.
  apply (inert_panel_changes_nothing oneSlideLeft _
           [Some (panel "left" Sidebar.slide true false 300 0 0)] []
           (panel "right" Sidebar.over true false 120 0 0));
    reflexivity.
Defined.

(** ** The sized overrides and the transform, in general *)

Lemma visitAll_overrides l v :
  Vars.widthStyle (visitAll l v)
  = match last (widthOverriders (omap id l)) with
    | Some s => Some (offsetDim s)
    | None => Vars.widthStyle v
    end
  /\ Vars.heightStyle (visitAll l v)
     = match last (heightOverriders (omap id l)) with
       | Some s => Some (offsetDim s)
       | None => Vars.heightStyle v
       end.
Proof.
  unfold widthOverriders, heightOverriders.
  induction l as [|o l [IHw IHh]] using rev_ind; [done|].
  rewrite visitAll_snoc, omap_id_snoc, !filter_app.
  destruct o as [s|]; [|by rewrite !app_nil_r].
  rewrite visit_widthStyle, visit_heightStyle, IHw, IHh.
  rewrite !filter_cons, !filter_nil. split.
  - destruct (decide (contributes s && slideOpened s && isLeftOrRight s = true))
      as [E|E].
    + by rewrite E, last_snoc.
    + apply not_true_is_false in E. by rewrite E, app_nil_r.
  - destruct (decide (contributes s && slideOpened s && negb (isLeftOrRight s) = true))
      as [E|E].
    + by rewrite E, last_snoc.
    + apply not_true_is_false in E. by rewrite E, app_nil_r.
Qed.

Lemma styleOfVars_overrides l :
  width (styleOfVars (visitAll l Vars.init))
  = offsetDim <$> last (widthOverriders (omap id l))
  /\ height (styleOfVars (visitAll l Vars.init))
     = offsetDim <$> last (heightOverriders (omap id l)).
Proof.
  cbn [width height styleOfVars].
  destruct (visitAll_overrides l Vars.init) as [-> ->].
  split; by destruct (last _).
Qed.

(** X4. The width of the style is the override of the last tracked panel
    that has [dock] set, is open in slide mode and sits on the left or
    right, and [null] when there is none; the height likewise for the
    panels at any other position. Each override is [offsetDim], built
    from that panel's docked size. *)
Theorem overrides_come_from_last_docked_slide w :
  exists st,
    _getContentStyles w = Ok st w
    /\ width st = offsetDim <$> last (widthOverriders (livePanels w))
    /\ height st = offsetDim <$> last (heightOverriders (livePanels w)).
Proof.
  eexists. split; [apply getContentStyles_eq|].
  unfold livePanels. apply styleOfVars_overrides.
Qed.

(** X5. The transform is [null] exactly when no tracked panel is open in slide
    mode; otherwise, with one such panel or several, it is the transform
    of the last one, under both property names. *)
Theorem transform_null_iff_no_open_slide w :
  exists st,
    _getContentStyles w = Ok st w
    /\ webkitTransform st = transform st
    /\ (transform st = None <-> slideOpenedPanels w = [])
    /\ (forall s, last (slideOpenedPanels w) = Some s ->
                  transform st = Some (slideTransform s)).
Proof.
  destruct (getContentStyles_transform w) as (st & Hst & Hwk & Htr).
  exists st. split; [exact Hst|]. split; [exact Hwk|]. rewrite Htr. split.
  - rewrite <- last_None. by destruct (last (slideOpenedPanels w)).
  - by intros s ->.
Qed.

(** ** A position outside the four cases of the switch *)

Lemma knownPosition_false s side :
  knownPosition s = false ->
  side ∈ ["left"; "right"; "top"; "bottom"] ->
  Sidebar.position s <> side.
Proof.
  unfold knownPosition. intros Hk Hside Heq. rewrite Heq in Hk.
  repeat (apply elem_of_cons in Hside as [->|Hside]; [by vm_compute in Hk|]).
  by apply elem_of_nil in Hside.
Qed.

Lemma reservedAt_insert_other side l1 l2 s :
  Sidebar.position s <> side ->
  reservedAt side (l1 ++ s :: l2) = reservedAt side (l1 ++ l2).
Proof.
  intros Hne. unfold reservedAt. rewrite !filter_app, filter_cons.
  destruct (decide (contributes s = true /\ Sidebar.position s = side))
    as [[_ ?]|_]; done.
Qed.

Lemma livePanels_insert w w' l1 l2 s :
  panels w = l1 ++ l2 ->
  panels w' = l1 ++ Some s :: l2 ->
  livePanels w = omap id l1 ++ omap id l2
  /\ livePanels w' = omap id l1 ++ s :: omap id l2.
Proof.
  intros Hw Hw'. unfold livePanels. rewrite Hw, Hw', !omap_app. done.
Qed.

(** X6. A panel whose position is none of 'left', 'right', 'top', 'bottom'
    (the switch has no default case) reserves no padding, even when it is
    docked or open in push mode, and never sets the width override. *)
Theorem unknown_position_reserves_nothing w w' l1 l2 s :
  knownPosition s = false ->
  panels w = l1 ++ l2 ->
  panels w' = l1 ++ Some s :: l2 ->
  exists st st',
    _getContentStyles w = Ok st w
    /\ _getContentStyles w' = Ok st' w'
    /\ padding st' = padding st
    /\ width st' = width st.
Proof.
  intros Hk Hw Hw'.
  destruct (livePanels_insert w w' l1 l2 s Hw Hw') as [Hl Hl'].
  destruct (getContentStyles_sideAmount w) as (st & Hst & Hpad).
  destruct (getContentStyles_sideAmount w') as (st' & Hst' & Hpad').
  rewrite getContentStyles_eq in Hst, Hst'.
  injection Hst as <-. injection Hst' as <-.
  destruct (styleOfVars_overrides (panels w)) as [Hwd _].
  destruct (styleOfVars_overrides (panels w')) as [Hwd' _].
  fold (livePanels w) in Hwd. fold (livePanels w') in Hwd'.
  eexists. eexists.
  split; [apply getContentStyles_eq|]. split; [apply getContentStyles_eq|]. split.
  - rewrite Hpad, Hpad'. unfold sideAmount. rewrite Hl, Hl'.
    rewrite !reservedAt_insert_other; [done|..];
      apply knownPosition_false; try done; set_solver.
  - rewrite Hwd, Hwd', Hl, Hl'. unfold widthOverriders.
    rewrite !filter_app, filter_cons.
    assert (isLeftOrRight s = false) as Hlr.
    { unfold knownPosition in Hk. unfold isLeftOrRight.
      by destruct (String.eqb _ "left"), (String.eqb _ "right"). }
    rewrite Hlr, andb_false_r.
    by destruct (decide (false = true)).
Qed.

Lemma unknown_position_reserves_nothing_witness :
  exists st st',
    _getContentStyles twoPushLeft = Ok st twoPushLeft
    /\ _getContentStyles
         (worldOfPanels (new_container true)
            [panel "left" Sidebar.push true false 200 0 0;
             panel "left" Sidebar.push true false 80 0 0;
             panel "start" Sidebar.push true true 999 999 999])
       = Ok st'
           (worldOfPanels (new_container true)
              [panel "left" Sidebar.push true false 200 0 0;
               panel "left" Sidebar.push true false 80 0 0;
               panel "start" Sidebar.push true true 999 999 999])
    /\ padding st' = padding st
    /\ width st' = width st.
Proof.
  apply (unknown_position_reserves_nothing twoPushLeft _
           [Some (panel "left" Sidebar.push true false 200 0 0);
            Some (panel "left" Sidebar.push true false 80 0 0)] []
           (panel "start" Sidebar.push true true 999 999 999));
    reflexivity.
Defined.

(** ** The padding shorthand can be read back *)







(** ** Registration and subscription *)

Lemma callOn_live w r s c :
  heap w !! r = Some s ->
  callOn (Some r) c w = Ok tt (mkWorld (this w) (heap w) (calls w ++ [c r])).
Proof. intros Hr. unfold callOn. cbn [panelAt]. by rewrite Hr. Qed.

Lemma subscribe_live w r s :
  heap w !! r = Some s ->
  _subscribe (Some r) w
  = Ok tt (mkWorld (this w) (heap w) (calls w ++ subscribeCalls r)).
Proof.
  intros Hr. unfold _subscribe, callOn, call, mbind, M_bind.
  repeat (cbn [panelAt heap this calls]; rewrite Hr).
  cbn [panelAt heap this calls]. unfold subscribeCalls.
  by rewrite <- !app_assoc.
Qed.

Lemma subscribe_falsy w o :
  panelAt (heap w) o = None -> _subscribe o w = Throw TypeError w.
Proof.
  intros Ho. unfold _subscribe. unfold mbind at 1, M_bind at 1, callOn at 1.
  destruct o as [r|]; [|done]. cbn [panelAt] in *. by rewrite Ho.
Qed.

Lemma register_live w r s :
  heap w !! r = Some s ->
  onRegisterCallback (Some r) w
  = Ok tt (mkWorld (push_sidebar (Some r) (this w)) (heap w)
             (calls w ++ subscribeCalls r)).
Proof.
  intros Hr. unfold onRegisterCallback. unfold mbind at 1, M_bind at 1, modify_this.
  exact (subscribe_live
           (mkWorld (push_sidebar (Some r) (this w)) (heap w) (calls w)) r s Hr).
Qed.

Lemma register_live_panels w r s :
  heap w !! r = Some s ->
  livePanels (mkWorld (push_sidebar (Some r) (this w)) (heap w)
                (calls w ++ subscribeCalls r))
  = livePanels w ++ [s].
Proof.
  intros Hr. unfold livePanels, panels. cbn [this heap push_sidebar _sidebars].
  rewrite map_app, omap_app. cbn. by rewrite Hr.
Qed.

(** X8. When the registration service hands a panel to the callback, the
    panel is appended at the end of the array (earlier entries keep their
    places), each of its seven emitters is subscribed once, open-start and
    close-start to [_onToggle] and the other five to [_markForCheck];
    nothing is emitted, no panel is written, and the panel counts in the
    next style computation. *)
Theorem registration_tracks_and_subscribes w r s :
  heap w !! r = Some s ->
  exists w',
    onRegisterCallback (Some r) w = Ok tt w'
    /\ _sidebars (this w') = _sidebars (this w) ++ [Some r]
    /\ showBackdrop (this w') = showBackdrop (this w)
    /\ heap w' = heap w
    /\ calls w' = calls w ++ subscribeCalls r
    /\ (forall sig, exists h,
          Subscribe r sig h ∈ subscribeCalls r
          /\ (h = HOnToggle <-> sig = onOpenStart \/ sig = onCloseStart))
    /\ livePanels w' = livePanels w ++ [s].
Proof.
  intros Hr. eexists. split; [by apply (register_live w r s)|].
  split; [done|]. split; [done|]. split; [done|]. split; [done|]. split.
  - intros sig. destruct sig;
      [exists HOnToggle|exists HMarkForCheck|exists HOnToggle|exists HMarkForCheck
      |exists HMarkForCheck|exists HMarkForCheck|exists HMarkForCheck];
      (split; [unfold subscribeCalls; repeat (first [by left|right])
              |split; [intros ?; first [done|by left|by right]
                      |intros [?|?]; done]]).
  - by apply register_live_panels.
Qed.

Lemma registration_tracks_and_subscribes_witness :
  exists w',
    onRegisterCallback (Some 5%nat) oneUntracked = Ok tt w'
    /\ _sidebars (this w') = _sidebars (this oneUntracked) ++ [Some 5%nat]
    /\ showBackdrop (this w') = showBackdrop (this oneUntracked)
    /\ heap w' = heap oneUntracked
    /\ calls w' = calls oneUntracked ++ subscribeCalls 5%nat
    /\ (forall sig, exists h,
          Subscribe 5%nat sig h ∈ subscribeCalls 5%nat
          /\ (h = HOnToggle <-> sig = onOpenStart \/ sig = onCloseStart))
    /\ livePanels w'
       = livePanels oneUntracked ++ [panel "left" Sidebar.push true false 250 0 0].
Proof.
  apply (registration_tracks_and_subscribes oneUntracked 5%nat
           (panel "left" Sidebar.push true false 250 0 0)).
  reflexivity.
Defined.

(** X9. When the service hands a falsy value ([null], [undefined]) to the
    callback, the value is pushed onto the array before [_subscribe]
    throws the TypeError: the array keeps the falsy entry, and no
    subscription was made. *)
Theorem falsy_registration_is_pushed_then_throws w o :
  panelAt (heap w) o = None ->
  onRegisterCallback o w
  = Throw TypeError
      (mkWorld (push_sidebar o (this w)) (heap w) (calls w)).
Proof.
  intros Ho. unfold onRegisterCallback.
  unfold mbind at 1, M_bind at 1, modify_this.
  by apply subscribe_falsy.
Qed.

Lemma falsy_registration_is_pushed_then_throws_witness :
  onRegisterCallback None browserWorld
  = Throw TypeError
      (mkWorld (push_sidebar None (this browserWorld)) (heap browserWorld)
         (calls browserWorld)).
Proof.
  apply (falsy_registration_is_pushed_then_throws browserWorld None).
  reflexivity.
Defined.

(** X10. Registering one more panel never lowers the padding on any
    side: each amount of the style computed after the registration is at
    least the amount computed before. *)
Theorem registration_never_lowers_padding w r s :
  heap w !! r = Some s ->
  exists w' st st',
    onRegisterCallback (Some r) w = Ok tt w'
    /\ _getContentStyles w = Ok st w
    /\ _getContentStyles w' = Ok st' w'
    /\ padding st
       = paddingString (sideAmount "top" w) (sideAmount "right" w)
           (sideAmount "bottom" w) (sideAmount "left" w)
    /\ padding st'
       = paddingString (sideAmount "top" w') (sideAmount "right" w')
           (sideAmount "bottom" w') (sideAmount "left" w')
    /\ forall side, sideAmount side w <= sideAmount side w'.
Proof.
  intros Hr.
  destruct (getContentStyles_sideAmount w) as (st & Hst & Hpad).
  destruct (getContentStyles_sideAmount
              (mkWorld (push_sidebar (Some r) (this w)) (heap w)
                 (calls w ++ subscribeCalls r))) as (st' & Hst' & Hpad').
  eexists. exists st, st'. split; [by apply (register_live w r s)|].
  split; [exact Hst|]. split; [exact Hst'|]. split; [exact Hpad|].
  split; [exact Hpad'|].
  intros side. unfold sideAmount. rewrite (register_live_panels w r s Hr).
  unfold reservedAt. rewrite filter_app, map_app, fold_left_app.
  apply fold_max_ge.
Qed.

Lemma registration_never_lowers_padding_witness :
  exists w' st st',
    onRegisterCallback (Some 5%nat) oneUntracked = Ok tt w'
    /\ _getContentStyles oneUntracked = Ok st oneUntracked
    /\ _getContentStyles w' = Ok st' w'
    /\ padding st
       = paddingString (sideAmount "top" oneUntracked)
           (sideAmount "right" oneUntracked)
           (sideAmount "bottom" oneUntracked) (sideAmount "left" oneUntracked)
    /\ padding st'
       = paddingString (sideAmount "top" w') (sideAmount "right" w')
           (sideAmount "bottom" w') (sideAmount "left" w')
    /\ forall side, sideAmount side oneUntracked <= sideAmount side w'.
Proof.
  apply (registration_never_lowers_padding oneUntracked 5%nat
           (panel "left" Sidebar.push true false 250 0 0)).
  reflexivity.
Defined.

(** ** Teardown *)

Lemma elem_of_unsubscribeCalls r' sig r :
  Unsubscribe r' sig ∈ unsubscribeCalls r <-> r' = r.
Proof.
  unfold unsubscribeCalls. split.
  - intros H. repeat (apply elem_of_cons in H as [[= -> _]|H]; [done|]).
    by apply elem_of_nil in H.
  - intros ->. destruct sig; repeat (first [by left|right]).
Qed.

(** X11. [ngOnDestroy] never throws. In a browser it unsubscribes every one of
    the seven emitters of exactly the tracked references that denote a
    panel, in iteration order, skipping falsy entries; without a browser
    it makes no call. It writes neither the container nor any panel. *)
Theorem destroy_releases_every_emitter w :
  exists w',
    ngOnDestroy w = Ok tt w'
    /\ this w' = this w
    /\ heap w' = heap w
    /\ calls w'
       = calls w ++ (if _isBrowser (this w)
                     then flat_map unsubscribeCalls (liveRefs w) else [])
    /\ (_isBrowser (this w) = true ->
        forall r sig,
          Unsubscribe r sig ∈ flat_map unsubscribeCalls (liveRefs w)
          <-> Some r ∈ _sidebars (this w) /\ is_Some (heap w !! r)).
Proof.
  unfold ngOnDestroy. unfold mbind at 1, M_bind at 1, get_this.
  destruct (_isBrowser (this w)) eqn:Hb; cbn [negb].
  - eexists. split; [apply unsubscribe_eq|].
    split; [done|]. split; [done|]. split; [done|].
    intros _ r sig. rewrite list_elem_of_In, in_flat_map. split.
    + intros (r' & Hr' & Hin). apply list_elem_of_In in Hr', Hin.
      apply elem_of_unsubscribeCalls in Hin as ->.
      unfold liveRefs in Hr'. apply list_elem_of_filter in Hr' as [Hlive Hr'].
      split; [by apply elem_of_refsOf|done].
    + intros [Hin Hlive]. exists r. rewrite <- !list_elem_of_In. split.
      * unfold liveRefs. apply list_elem_of_filter. split; [done|].
        by apply elem_of_refsOf.
      * by apply elem_of_unsubscribeCalls.
  - exists w. rewrite app_nil_r. by repeat split.
Qed.

(** ** Initialisation *)

(** X12. In a browser, with control of the backdrop allowed and no panel
    tracked yet (as at construction), [ngAfterContentInit] sets
    [showBackdrop] to false whatever the input was bound to, emits
    [false], schedules the deferred check and installs the registration
    callback, in this order. *)
Theorem init_resets_backdrop w :
  _isBrowser (this w) = true ->
  allowSidebarBackdropControl (this w) = true ->
  _sidebars (this w) = [] ->
  ngAfterContentInit w
  = Ok tt (mkWorld (set_showBackdrop false (this w)) (heap w)
             (calls w ++ [ShowBackdropChangeEmit false; SetTimeoutMarkForCheck;
                          ServiceOnRegister])).
Proof.
  intros Hb Hallow Hl. unfold ngAfterContentInit.
  unfold mbind at 1, M_bind at 1, get_this. rewrite Hb. cbn [negb].
  erewrite bind_Ok.
  2:{ apply onToggle_eq. intros _. unfold allLive. by rewrite Hl. }
  rewrite Hallow. unfold livePanels, panels. rewrite Hl.
  unfold call. cbn. by rewrite <- !app_assoc.
Qed.

Lemma init_resets_backdrop_witness :
  ngAfterContentInit shownAtStart
  = Ok tt (mkWorld (set_showBackdrop false (this shownAtStart)) (heap shownAtStart)
             (calls shownAtStart
              ++ [ShowBackdropChangeEmit false; SetTimeoutMarkForCheck;
                  ServiceOnRegister])).
Proof. apply (init_resets_backdrop shownAtStart); reflexivity. Defined.

(** ** Edges of the toggle recomputation *)

Lemma onToggle_some_found w pre o rest s :
  Forall (fun sidebar => is_Some (panelAt (heap w) sidebar)) pre ->
  panelAt (heap w) o = Some s ->
  wantsBackdrop s = true ->
  some (fun sidebar => s ← deref sidebar;
                       mret (Sidebar.opened s && Sidebar.showBackdrop s))
       (pre ++ o :: rest) w
  = Ok true w.
Proof.
  intros Hpre Ho Hs. induction Hpre as [|x pre [sx Hx] _ IH]; cbn [app some].
  - unfold mbind at 1, M_bind at 1. unfold mbind at 1, M_bind at 1, deref at 1.
    rewrite Ho. cbn [mret M_ret]. fold (wantsBackdrop s). by rewrite Hs.
  - unfold mbind at 1, M_bind at 1. unfold mbind at 1, M_bind at 1, deref at 1.
    rewrite Hx. cbn [mret M_ret]. by destruct (_ && _).
Qed.

Lemma onToggle_some_falsy w pre o rest :
  Forall (fun sidebar => exists s, panelAt (heap w) sidebar = Some s
                                   /\ wantsBackdrop s = false) pre ->
  panelAt (heap w) o = None ->
  some (fun sidebar => s ← deref sidebar;
                       mret (Sidebar.opened s && Sidebar.showBackdrop s))
       (pre ++ o :: rest) w
  = Throw TypeError w.
Proof.
  intros Hpre Ho. induction Hpre as [|x pre (sx & Hx & Hw) _ IH]; cbn [app some].
  - unfold mbind at 1, M_bind at 1. unfold mbind at 1, M_bind at 1, deref at 1.
    by rewrite Ho.
  - unfold mbind at 1, M_bind at 1. unfold mbind at 1, M_bind at 1, deref at 1.
    rewrite Hx. cbn [mret M_ret]. fold (wantsBackdrop sx). by rewrite Hw.
Qed.

(** X13. [some] stops at the first panel that is opened and asks for the
    backdrop: when such a panel comes before any falsy entry, [_onToggle]
    completes with [showBackdrop] true and emits [true], whatever follows
    it in the array, falsy entries included. *)
Theorem onToggle_stops_at_first_match w pre o rest s :
  allowSidebarBackdropControl (this w) = true ->
  _sidebars (this w) = pre ++ o :: rest ->
  Forall (fun sidebar => is_Some (panelAt (heap w) sidebar)) pre ->
  panelAt (heap w) o = Some s ->
  wantsBackdrop s = true ->
  _onToggle w
  = Ok tt (mkWorld (set_showBackdrop true (this w)) (heap w)
             (calls w ++ [ShowBackdropChangeEmit true; SetTimeoutMarkForCheck])).
Proof.
  intros Hallow Hl Hpre Ho Hs. unfold _onToggle.
  unfold mbind at 1, M_bind at 1, get_this. rewrite Hallow, Hl.
  unfold mbind at 1, M_bind at 1. unfold mbind at 1, M_bind at 1.
  rewrite (onToggle_some_found w pre o rest s Hpre Ho Hs).
  unfold modify_this, call, mbind, M_bind. cbn. by rewrite <- app_assoc.
Qed.

Lemma onToggle_stops_at_first_match_witness :
  _onToggle openThenNull
  = Ok tt (mkWorld (set_showBackdrop true (this openThenNull)) (heap openThenNull)
             (calls openThenNull
              ++ [ShowBackdropChangeEmit true; SetTimeoutMarkForCheck])).
Proof.
  apply (onToggle_stops_at_first_match openThenNull [] (Some 0%nat) [None]
           (backdropPanel true)); try reflexivity.
  constructor.
Defined.

(** X14. When a falsy entry comes before any panel that is opened and asks for
    the backdrop, [_onToggle] throws the TypeError having done nothing:
    [showBackdrop] is not written, nothing is emitted, and the deferred
    check is not scheduled. *)
Theorem onToggle_throws_before_any_write w pre o rest :
  allowSidebarBackdropControl (this w) = true ->
  _sidebars (this w) = pre ++ o :: rest ->
  Forall (fun sidebar => exists s, panelAt (heap w) sidebar = Some s
                                   /\ wantsBackdrop s = false) pre ->
  panelAt (heap w) o = None ->
  _onToggle w = Throw TypeError w.
Proof.
  intros Hallow Hl Hpre Ho. unfold _onToggle.
  unfold mbind at 1, M_bind at 1, get_this. rewrite Hallow, Hl.
  unfold mbind at 1, M_bind at 1. unfold mbind at 1, M_bind at 1.
  by rewrite (onToggle_some_falsy w pre o rest Hpre Ho).
Qed.

Lemma onToggle_throws_before_any_write_witness :
  _onToggle closedThenNull = Throw TypeError closedThenNull.
Proof.
  apply (onToggle_throws_before_any_write closedThenNull [Some 0%nat] None []);
    try reflexivity.
  constructor; [|constructor]. eexists. split; reflexivity.
Defined.



(** ** A click interrupted by a falsy entry *)

Lemma forEach_app {A} (f : A -> M unit) l1 l2 w :
  forEach f (l1 ++ l2) w = (forEach f l1 ;; forEach f l2) w.
Proof.
  revert w. induction l1 as [|x l1 IH]; intros w; [done|].
  cbn [app forEach]. unfold mbind, M_bind in *.
  destruct (f x w) as [[] w1|e w1]; [apply IH|done].
Qed.

Lemma panelAt_closeAll_None rs h o :
  panelAt h o = None -> panelAt (closeAll rs h) o = None.
Proof.
  destruct o as [r|]; [|done]. cbn [panelAt]. intros Hr.
  rewrite closeAll_lookup, Hr. by case_bool_decide.
Qed.

(** X16. The click handler is not atomic: when a falsy entry follows panels
    that denote objects, the qualifying ones among those are closed, in
    order, and then the TypeError is thrown; nothing after the falsy entry
    is visited and the container's own fields are not written. *)
Theorem click_closes_up_to_falsy_entry w pre o rest :
  _sidebars (this w) = pre ++ o :: rest ->
  Forall (fun sidebar => is_Some (panelAt (heap w) sidebar)) pre ->
  NoDup pre ->
  panelAt (heap w) o = None ->
  exists w',
    _onBackdropClicked w = Throw TypeError w'
    /\ this w' = this w
    /\ calls w'
       = calls w
         ++ map Close (filter (fun r => closesOnClickAt (heap w) r = true) (refsOf pre)).
Proof.
  intros Hl Hpre Hnd Ho. unfold _onBackdropClicked.
  unfold mbind at 1, M_bind at 1, get_this. rewrite Hl, forEach_app.
  erewrite bind_Ok by (by apply onBackdropClicked_loop).
  cbn [forEach]. unfold mbind at 1, M_bind at 1.
  unfold mbind at 1, M_bind at 1, deref at 1. cbn [heap].
  rewrite (panelAt_closeAll_None _ _ _ Ho). by eexists.
Qed.

Lemma click_closes_up_to_falsy_entry_witness :
  exists w',
    _onBackdropClicked openThenNull = Throw TypeError w'
    /\ this w' = this openThenNull
    /\ calls w'
       = calls openThenNull
         ++ map Close (filter (fun r => closesOnClickAt (heap openThenNull) r = true)
                              (refsOf [Some 0%nat])).
Proof.
  apply (click_closes_up_to_falsy_entry openThenNull [Some 0%nat] None []).
  - reflexivity.
  - constructor; [|constructor]. eexists. reflexivity.
  - apply (bool_decide_unpack _). vm_compute. exact I.
  - reflexivity.
Defined.

(** ** What the methods leave alone *)

Section Keeps.
Context (R : World -> World -> Prop).
Hypothesis R_refl : forall w, R w w.
Hypothesis R_trans : forall w1 w2 w3, R w1 w2 -> R w2 w3 -> R w1 w3.

Lemma keeps_ret {A} (a : A) : keeps R (mret a).
Proof. intros w. apply R_refl. Qed.

Lemma keeps_bind {A B} (m : M A) (f : A -> M B) :
  keeps R m -> (forall a, keeps R (f a)) -> keeps R (m ≫= f).
Proof.
  intros Hm Hf w. specialize (Hm w). unfold mbind, M_bind.
  destruct (m w) as [a w1|e w1]; cbn [worldOf] in *; [|done].
  eapply R_trans; [exact Hm|apply Hf].
Qed.

Lemma keeps_forEach {A} (f : A -> M unit) l :
  (forall x, keeps R (f x)) -> keeps R (forEach f l).
Proof.
  intros Hf. induction l as [|x l IH]; cbn [forEach]; [apply keeps_ret|].
  apply keeps_bind; [apply Hf|by intros _].
Qed.

Lemma keeps_some {A} (f : A -> M bool) l :
  (forall x, keeps R (f x)) -> keeps R (some f l).
Proof.
  intros Hf. induction l as [|x l IH]; cbn [some]; [apply keeps_ret|].
  apply keeps_bind; [apply Hf|]. intros [|]; [apply keeps_ret|exact IH].
Qed.

Lemma keeps_get_this : keeps R get_this.
Proof. intros w. apply R_refl. Qed.

Lemma keeps_deref o : keeps R (deref o).
Proof. intros w. unfold deref. destruct (panelAt _ _); apply R_refl. Qed.

Lemma keeps_getContentStyles : keeps R _getContentStyles.
Proof. intros w. rewrite getContentStyles_eq. apply R_refl. Qed.

Lemma keeps_callOn o c : (forall c, keeps R (call c)) -> keeps R (callOn o c).
Proof.
  intros Hc w. unfold callOn.
  destruct o as [r|]; [|apply R_refl].
  destruct (panelAt _ _); [apply Hc|apply R_refl].
Qed.

Lemma keeps_onToggle :
  (forall c, keeps R (call c)) ->
  (forall b, keeps R (modify_this (set_showBackdrop b))) ->
  keeps R _onToggle.
Proof.
  intros Hc Hm. unfold _onToggle.
  apply keeps_bind; [apply keeps_get_this|]. intros c.
  apply keeps_bind; [|intros _; apply Hc].
  destruct (allowSidebarBackdropControl c); [|apply keeps_ret].
  apply keeps_bind.
  - apply keeps_some. intros o.
    apply keeps_bind; [apply keeps_deref|]. intros s. apply keeps_ret.
  - intros b. apply keeps_bind; [apply Hm|]. intros _. apply Hc.
Qed.

Lemma keeps_subscribe o : (forall c, keeps R (call c)) -> keeps R (_subscribe o).
Proof.
  intros Hc. unfold _subscribe.
  repeat (apply keeps_bind; [by apply keeps_callOn|intros _]).
  by apply keeps_callOn.
Qed.

Lemma keeps_unsubscribe : (forall c, keeps R (call c)) -> keeps R _unsubscribe.
Proof.
  intros Hc w. rewrite unsubscribe_eq. cbn [worldOf].
  induction (flat_map unsubscribeCalls (liveRefs w)) as [|c l IH] using rev_ind.
  - rewrite app_nil_r. destruct w. apply R_refl.
  - eapply R_trans; [exact IH|]. rewrite app_assoc.
    apply (Hc c (mkWorld (this w) (heap w) (calls w ++ l))).
Qed.

Lemma keeps_onRegisterCallback o :
  (forall c, keeps R (call c)) ->
  keeps R (modify_this (push_sidebar o)) ->
  keeps R (onRegisterCallback o).
Proof.
  intros Hc Hp. unfold onRegisterCallback.
  apply keeps_bind; [exact Hp|]. intros _. by apply keeps_subscribe.
Qed.

Lemma keeps_hooks :
  (forall c, keeps R (call c)) ->
  (forall b, keeps R (modify_this (set_showBackdrop b))) ->
  keeps R ngAfterContentInit
  /\ (forall changes, keeps R (ngOnChanges changes))
  /\ keeps R ngOnDestroy.
Proof.
  intros Hc Hm. split; [|split].
  - unfold ngAfterContentInit. apply keeps_bind; [apply keeps_get_this|].
    intros c. destruct (negb _); [apply keeps_ret|].
    apply keeps_bind; [by apply keeps_onToggle|]. intros _. apply Hc.
  - intros changes. unfold ngOnChanges.
    apply keeps_bind; [apply keeps_get_this|].
    intros c. destruct (negb _); [apply keeps_ret|].
    destruct changes; [apply Hc|apply keeps_ret].
  - unfold ngOnDestroy. apply keeps_bind; [apply keeps_get_this|].
    intros c. destruct (negb _); [apply keeps_ret|]. by apply keeps_unsubscribe.
Qed.

End Keeps.

Lemma sameHeap_call c : keeps sameHeap (call c).
Proof. by intros w. Qed.

Lemma sameHeap_modify f : keeps sameHeap (modify_this f).
Proof. by intros w. Qed.

Lemma sameHeap_trans w1 w2 w3 : sameHeap w1 w2 -> sameHeap w2 w3 -> sameHeap w1 w3.
Proof. unfold sameHeap. congruence. Qed.

(** X17. No method of the container other than the click handler writes a
    panel, whether it returns or throws: the hooks, the style computation,
    the toggle recomputation, the registration callback and the
    unsubscription leave every panel's fields as they found them. *)
Theorem only_the_click_writes_panels w :
  heap (worldOf (ngAfterContentInit w)) = heap w
  /\ (forall changes, heap (worldOf (ngOnChanges changes w)) = heap w)
  /\ heap (worldOf (ngOnDestroy w)) = heap w
  /\ heap (worldOf (_getContentStyles w)) = heap w
  /\ heap (worldOf (_onToggle w)) = heap w
  /\ (forall sidebar, heap (worldOf (onRegisterCallback sidebar w)) = heap w)
  /\ heap (worldOf (_unsubscribe w)) = heap w.
Proof.
  pose proof (fun w => eq_refl : sameHeap w w) as Hrefl.
  destruct (keeps_hooks sameHeap Hrefl sameHeap_trans sameHeap_call
              (fun b => sameHeap_modify _)) as (Hinit & Hchanges & Hdestroy).
  split; [apply Hinit|]. split; [intros changes; apply Hchanges|].
  split; [apply Hdestroy|].
  split; [by apply (keeps_getContentStyles sameHeap)|].
  split; [apply (keeps_onToggle sameHeap Hrefl sameHeap_trans sameHeap_call
                   (fun b => sameHeap_modify _))|].
  split.
  - intros sidebar.
    apply (keeps_onRegisterCallback sameHeap Hrefl sameHeap_trans _
             sameHeap_call (sameHeap_modify _)).
  - apply (keeps_unsubscribe sameHeap Hrefl sameHeap_trans sameHeap_call).
Qed.

Lemma enter_sameHeap e : writesPanels e = false -> keeps sameHeap (enter e).
Proof.
  pose proof (fun w => eq_refl : sameHeap w w) as Hrefl.
  destruct (keeps_hooks sameHeap Hrefl sameHeap_trans sameHeap_call
              (fun b => sameHeap_modify _)) as (Hinit & Hchanges & Hdestroy).
  destruct e; cbn [writesPanels enter]; intros Hw; try done.
  - apply (keeps_bind sameHeap sameHeap_trans);
      [by apply keeps_getContentStyles|].
    intros _. by apply keeps_ret.
  - intros w.
    apply (keeps_forEach sameHeap Hrefl sameHeap_trans). intros _.
    apply (keeps_onRegisterCallback sameHeap Hrefl sameHeap_trans _
             sameHeap_call (sameHeap_modify _)).
  - intros w.
    apply (keeps_forEach sameHeap Hrefl sameHeap_trans). intros [|].
    + apply (keeps_onToggle sameHeap Hrefl sameHeap_trans sameHeap_call
               (fun b => sameHeap_modify _)).
    + apply sameHeap_call.
Qed.

(** Over any run of hooks, registrations, panel events, input writes and
    style computations (anything but a click on the backdrop and the
    panels' own controllers), the panels are never written by the
    container. *)
Theorem run_without_click_keeps_panels es w :
  Forall (fun e => writesPanels e = false) es ->
  heap (run es w) = heap w.
Proof.
  intros Hes. revert w. induction Hes as [|e es He _ IH]; intros w; [done|].
  cbn [run fold_left]. fold (run es (worldOf (enter e w))).
  rewrite IH. by apply enter_sameHeap.
Qed.

Lemma run_without_click_keeps_panels_witness :
  heap (run browserEntries (worldOfPanels (new_container true) [backdropPanel true]))
  = heap (worldOfPanels (new_container true) [backdropPanel true]).
Proof.
  apply (run_without_click_keeps_panels browserEntries).
  repeat constructor.
Defined.

(** ** The array only grows *)

Lemma grows_refl w : grows w w.
Proof. by split. Qed.

Lemma grows_trans w1 w2 w3 : grows w1 w2 -> grows w2 w3 -> grows w1 w3.
Proof.
  intros [Hb1 Hp1] [Hb2 Hp2]. split; [congruence|]. by etrans.
Qed.

Lemma grows_call c : keeps grows (call c).
Proof. intros w. by split. Qed.

Lemma grows_set_showBackdrop b : keeps grows (modify_this (set_showBackdrop b)).
Proof. intros w. by split. Qed.

Lemma grows_push o : keeps grows (modify_this (push_sidebar o)).
Proof. intros w. split; [done|]. cbn. by apply prefix_app_r. Qed.

Lemma grows_close o : keeps grows (close o).
Proof.
  intros w. unfold close. destruct o as [r|]; [|apply grows_refl].
  destruct (panelAt _ _); by split.
Qed.

Lemma enter_grows e : keeps grows (enter e).
Proof.
  destruct (keeps_hooks grows grows_refl grows_trans grows_call
              grows_set_showBackdrop) as (Hinit & Hchanges & Hdestroy).
  destruct e; cbn [enter]; try done.
  - apply (keeps_bind grows grows_trans);
      [by apply keeps_getContentStyles, grows_refl|].
    intros _. by apply keeps_ret, grows_refl.
  - apply (keeps_bind grows grows_trans);
      [by apply keeps_get_this, grows_refl|].
    intros c. destruct (showBackdrop c); [|by apply keeps_ret, grows_refl].
    unfold _onBackdropClicked.
    apply (keeps_bind grows grows_trans);
      [by apply keeps_get_this, grows_refl|].
    intros c'. apply (keeps_forEach grows grows_refl grows_trans). intros o.
    apply (keeps_bind grows grows_trans);
      [by apply keeps_deref, grows_refl|].
    intros s. destruct (_ && _); [apply grows_close|by apply keeps_ret, grows_refl].
  - intros w. apply (keeps_forEach grows grows_refl grows_trans). intros _.
    apply (keeps_onRegisterCallback grows grows_refl grows_trans _
             grows_call (grows_push _)).
  - intros w. apply (keeps_forEach grows grows_refl grows_trans). intros [|].
    + apply (keeps_onToggle grows grows_refl grows_trans grows_call
               grows_set_showBackdrop).
    + apply grows_call.
Qed.

(** X18. Whatever reaches the container, in whatever order, and whether or not
    a method throws on the way: the detection flag never changes, and the
    array of panels is only ever appended to. No panel is removed, moved
    or replaced; not even teardown empties the array. *)
Theorem tracked_panels_only_grow es w :
  _isBrowser (this (run es w)) = _isBrowser (this w)
  /\ _sidebars (this w) `prefix_of` _sidebars (this (run es w)).
Proof.
  change (grows w (run es w)).
  revert w. induction es as [|e es IH]; intros w; [apply grows_refl|].
  cbn [run fold_left]. fold (run es (worldOf (enter e w))).
  eapply grows_trans; [apply enter_grows|apply IH].
Qed.
